(** * Observatory sequencer: a shallow embedding of [observatory.py]

    The Python module drives an observatory through three external
    collaborators (an INDI device server, the SIMBAD name resolver and the
    PHD2 guiding daemon), the wall clock, the file system, the operator's
    terminal and a log file.  Every procedure of the module is embedded as a
    computation in a small monad that threads the mutable part of the outside
    world, collects the externally visible actions in chronological order and
    propagates Python exceptions. *)

From Stdlib Require Import ZArith QArith String Ascii List DecimalString DecimalN Lia.
From stdpp Require Import base option list strings gmap.

Open Scope string_scope.
Open Scope list_scope.

(** ** Text: the string operations the module relies on *)

Module Text.

(** [str.lower] on one character (ASCII letters; other characters are
    left as they are). *)
Definition lower_ascii (c : ascii) : ascii :=
  let n := nat_of_ascii c in
  if (65 <=? n)%nat && (n <=? 90)%nat then ascii_of_nat (n + 32) else c.

(** [str.lower]. *)
Fixpoint lower (s : string) : string :=
  match s with
  | EmptyString => EmptyString
  | String c s' => String (lower_ascii c) (lower s')
  end.

Fixpoint zeros (n : nat) : string :=
  match n with
  | O => EmptyString
  | S n' => String "0" (zeros n')
  end.

(** Left padding with ['0'] up to a minimum width; longer strings are
    kept whole. *)
Definition zfill (width : nat) (s : string) : string :=
  zeros (width - String.length s) +:+ s.

(** Decimal rendering of a natural number, as [str] does. *)
Definition str_N (n : N) : string := NilZero.string_of_uint (N.to_uint n).

(** The format specification [:04d]: sign-aware zero padding to a minimum
    total width of four characters. *)
Definition format_04d (z : Z) : string :=
  match z with
  | Zneg p => String "-" (zfill 3 (str_N (Npos p)))
  | _ => zfill 4 (str_N (Z.to_N z))
  end.

(** Reading a decimal index back (used to state what an index denotes). *)
Definition parse_N (s : string) : option N :=
  N.of_uint <$> NilZero.uint_of_string s.

Definition is_digit (c : ascii) : bool :=
  let n := nat_of_ascii c in (48 <=? n)%nat && (n <=? 57)%nat.

Fixpoint all_digits (s : string) : bool :=
  match s with
  | EmptyString => true
  | String c s' => is_digit c && all_digits s'
  end.

End Text.

(** ** The wall clock *)

Record DateTime := mkDateTime {
  year : N; month : N; day : N; hour : N; minute : N
}.

(** [datetime.strftime('%Y%m%d_%H%MUT')]: four-digit year, two-digit month,
    day, hour and minute, and the literal suffix. *)
Definition strftime (t : DateTime) : string :=
  Text.zfill 4 (Text.str_N (year t)) +:+ Text.zfill 2 (Text.str_N (month t))
  +:+ Text.zfill 2 (Text.str_N (day t)) +:+ "_"
  +:+ Text.zfill 2 (Text.str_N (hour t)) +:+ Text.zfill 2 (Text.str_N (minute t))
  +:+ "UT".

(** The values [datetime.now()] ranges over (four-digit years, for which
    every platform writes [%Y] the same way). *)
Definition valid_datetime (t : DateTime) : Prop :=
  (1000 <= year t <= 9999)%N /\ (1 <= month t <= 12)%N /\ (1 <= day t <= 31)%N
  /\ (hour t <= 23)%N /\ (minute t <= 59)%N.

(** ** Data *)

(** Sky coordinates as [SkyCoord] carries them. *)
Record Coords := SkyCoord { ra : Q; dec : Q }.

Inductive Level := INFO | ERROR.

(** The log records of the module, one constructor per message template. *)
Inductive Message :=
  | MsgObjectNotFound (object_name : string)   (* "Object {object_name} not found." *)
  | MsgTargetNotFound                          (* "Target not found." *)
  | MsgSlewed (c : Coords)                     (* "Slewed to RA: ..., DEC: ..." *)
  | MsgCaptured (filename : string)            (* "Captured {filename}" *)
  | MsgSlewAborted                             (* "Aborted slew due to low altitude." *)
  | MsgSequenceComplete (directory : string)   (* "Sequence complete. Images stored in {directory}." *)
  | MsgSequenceAborted.                        (* "Sequence aborted due to low altitude." *)

(** Externally visible actions, in the vocabulary of the libraries called. *)
Inductive Event :=
  | SimbadQuery (object_name : string)
  | IndiGetProperty (device property : string)
  | IndiNumber (device property element : string) (value : Z)
  | IndiCoord (device property : string) (ra_deg dec_deg : Q)
  | IndiText (device property element value : string)
  | HttpGet (url : string) (params : list (string * string))
  | Sleep (seconds : Z)
  | MakeDirs (path : string)
  | Prompt (altitude : Q)
  | Log (level : Level) (msg : Message).

(** Python exceptions that the embedded procedures can raise. *)
Inductive Exn :=
  | KeyError (key : string)
  | ValueError (msg : string)
  | OverflowError
  | EOFError.

Inductive Result (A : Type) :=
  | Ok (a : A)
  | Raise (e : Exn).
Arguments Ok {A} a.
Arguments Raise {A} e.

(** The outside world: what the collaborators answer, and the two pieces of
    state a run consumes (clock readings and lines typed by the operator). *)
Record World := mkWorld {
  resolver : string -> option Coords;      (* SIMBAD: name to coordinates *)
  sky_altitude : Coords -> Q;              (* altitude in degrees at the site *)
  guider : string -> option string;        (* PHD2: status token per URL *)
  wall_clock : nat -> DateTime;            (* the k-th reading of the clock *)
  ticks : nat;                             (* readings taken so far *)
  stdin : list string                      (* lines still to be read *)
}.

Definition tick (w : World) : World :=
  mkWorld (resolver w) (sky_altitude w) (guider w) (wall_clock w) (S (ticks w)) (stdin w).

Definition set_stdin (w : World) (lines : list string) : World :=
  mkWorld (resolver w) (sky_altitude w) (guider w) (wall_clock w) (ticks w) lines.

(** ** The monad of procedures *)

Definition M (A : Type) : Type := World -> Result A * list Event * World.

#[global] Instance M_ret : MRet M := fun A a w => (Ok a, [], w).

#[global] Instance M_bind : MBind M := fun A B f m w =>
  match m w with
  | (Ok a, t1, w1) =>
      match f a w1 with
      | (r, t2, w2) => (r, t1 ++ t2, w2)
      end
  | (Raise e, t1, w1) => (Raise e, t1, w1)
  end.

Definition raise {A} (e : Exn) : M A := fun w => (Raise e, [], w).

Definition emit (e : Event) : M unit := fun w => (Ok tt, [e], w).

(** Projections of a run. *)
Definition result_of {A} (o : Result A * list Event * World) : Result A := o.1.1.
Definition events_of {A} (o : Result A * list Event * World) : list Event := o.1.2.

(** [for x in xs: body(x)] *)
Fixpoint for_each {A} (xs : list A) (body : A -> M unit) : M unit :=
  match xs with
  | [] => mret tt
  | x :: xs' => body x ;; for_each xs' body
  end.

(** [range(n)] *)
Definition range (n : Z) : list Z := map Z.of_nat (seq 0 (Z.to_nat n)).

(** ** Library calls *)

(** What [time.sleep] raises for a whole number of seconds, if anything.
    The interpreter first turns the duration into a signed 64-bit count of
    nanoseconds: a duration that does not fit (beyond 9223372036 seconds,
    either way) is an [OverflowError]; a negative one that fits is a
    [ValueError].  Otherwise the wait is taken to go through.  (A platform
    can still refuse a wait of that order with an [OSError] when its deadline
    passes the range of the monotonic clock, which depends on how long the
    machine has been running; the properties below that need a completed wait
    bound the waits of the whole run by 10^9 seconds, far away from it.) *)
Definition sleep_fault (seconds : Z) : option Exn :=
  if (seconds * 1000000000 <? - 9223372036854775808)%Z
     || (9223372036854775807 <? seconds * 1000000000)%Z
  then Some OverflowError
  else if (seconds <? 0)%Z then Some (ValueError "sleep length must be non-negative")
  else None.

(** [time.sleep] *)
Definition sleep (seconds : Z) : M unit :=
  match sleep_fault seconds with
  | Some x => raise x
  | None => emit (Sleep seconds)
  end.

(** [datetime.now().strftime('%Y%m%d_%H%MUT')] *)
Definition now_strftime : M string :=
  fun w => (Ok (strftime (wall_clock w (ticks w))), [], tick w).

(** [input(prompt)]: the prompt is written, then one line is read. *)
Definition input (altitude : Q) : M string :=
  fun w =>
    match stdin w with
    | [] => (Raise EOFError, [Prompt altitude], w)
    | line :: rest => (Ok line, [Prompt altitude], set_stdin w rest)
    end.

(** [Simbad().query_object(object_name)], reduced to the coordinates of the
    first row. *)
Definition simbad_query (object_name : string) : M (option Coords) :=
  fun w => (Ok (resolver w object_name), [SimbadQuery object_name], w).

(** [requests.get(url, params).json().get('status')] *)
Definition requests_get_status (url : string) (params : list (string * string))
  : M (option string) :=
  fun w => (Ok (guider w url), [HttpGet url params], w).

(** [coords.transform_to(observer_location).alt.degree] *)
Definition transform_to_altaz (coords : Coords) : M Q :=
  fun w => (Ok (sky_altitude w coords), [], w).

Definition logging_info (msg : Message) : M unit := emit (Log INFO msg).
Definition logging_error (msg : Message) : M unit := emit (Log ERROR msg).

(** ** The module *)

Definition PHD2_API_URL : string := "http://localhost:4400".

Definition filters : gmap string Z :=
  list_to_map [("L", 1%Z); ("R", 2%Z); ("G", 3%Z); ("B", 4%Z); ("H", 5%Z); ("O", 6%Z)].

Definition Qlt_bool (x y : Q) : bool := negb (Qle_bool y x).

Definition status_is_ok (status : option string) : bool :=
  bool_decide (status = Some "OK").

(** [if result:] holds exactly when the resolver found the object. *)
Definition get_coordinates (object_name : string) : M (option Coords) :=
  result ← simbad_query object_name;
  match result with
  | Some coords => mret (Some coords)
  | None =>
      logging_error (MsgObjectNotFound object_name);;
      mret None
  end.

Definition check_altitude (coords : Coords) : M Q :=
  emit (IndiGetProperty "iOptron IEQ Pro" "GEOGRAPHIC_COORD");;
  transform_to_altaz coords.

Definition slew_to_target (coords : Coords) : M unit :=
  emit (IndiCoord "iOptron IEQ Pro" "EQUATORIAL_EOD_COORD" (ra coords) (dec coords));;
  sleep 10;;
  logging_info (MsgSlewed coords).

Definition start_guiding : M bool :=
  status ← requests_get_status (PHD2_API_URL +:+ "/guide") [];
  mret (status_is_ok status).

Definition stop_guiding : M bool :=
  status ← requests_get_status (PHD2_API_URL +:+ "/stop_capture") [];
  mret (status_is_ok status).

Definition enable_multi_star_guiding : M bool :=
  status ← requests_get_status (PHD2_API_URL +:+ "/set_dec_guide_mode")
             [("mode", "multistar")];
  mret (status_is_ok status).

(** The shape [{directory}/{filter}_{timestamp}_{index}.fits]. *)
Definition frame_path (directory filter_name timestamp index : string) : string :=
  directory +:+ "/" +:+ filter_name +:+ "_" +:+ timestamp +:+ "_" +:+ index +:+ ".fits".

(** [f"{directory}/{filter_name}_{timestamp}_{count:04d}.fits"] *)
Definition frame_filename (directory filter_name timestamp : string) (count : Z) : string :=
  frame_path directory filter_name timestamp (Text.format_04d count).

Definition capture_image (exposure_time : Z) (filter_name directory : string) (count : Z)
  : M unit :=
  filter_position ← match filters !! filter_name with
                    | Some p => mret p
                    | None => raise (KeyError filter_name)
                    end;
  emit (IndiNumber "ZWO EFW" "FILTER_SLOT" "FILTER_SLOT_VALUE" filter_position);;
  sleep 2;;
  emit (IndiNumber "ZWO CCD ASI183MM Pro" "CCD_EXPOSURE" "CCD_EXPOSURE_VALUE" exposure_time);;
  sleep (exposure_time + 2);;
  timestamp ← now_strftime;
  let filename := frame_filename directory filter_name timestamp count in
  emit (IndiText "ZWO CCD ASI183MM Pro" "CCD_SAVE" "CCD_SAVE_PATH" filename);;
  logging_info (MsgCaptured filename).

Definition dither : M unit :=
  emit (IndiNumber "iOptron IEQ Pro" "TELESCOPE_MOTION_NS" "TELESCOPE_MOTION_NS_VALUE" 1);;
  sleep 1;;
  emit (IndiNumber "iOptron IEQ Pro" "TELESCOPE_MOTION_WE" "TELESCOPE_MOTION_WE_VALUE" 1);;
  sleep 1;;
  emit (IndiNumber "iOptron IEQ Pro" "TELESCOPE_MOTION_NS" "TELESCOPE_MOTION_NS_VALUE" 0);;
  emit (IndiNumber "iOptron IEQ Pro" "TELESCOPE_MOTION_WE" "TELESCOPE_MOTION_WE_VALUE" 0).

Definition create_directory (base_directory target_name : string) : M string :=
  timestamp ← now_strftime;
  let directory_name := base_directory +:+ "/" +:+ target_name +:+ "_" +:+ timestamp in
  emit (MakeDirs directory_name);;
  mret directory_name.

(** The altitude is a number of degrees, taken as a rational. *)
Definition check_continue_sequence (altitude : Q) : M bool :=
  if Qlt_bool altitude 20 then
    response ← input altitude;
    mret (bool_decide (Text.lower response = "y"))
  else mret true.

Definition observatory_target (target_name : string) : M unit :=
  coords ← get_coordinates target_name;
  match coords with
  | Some coords =>
      altitude ← check_altitude coords;
      continue ← check_continue_sequence altitude;
      if continue : bool then slew_to_target coords
      else logging_info MsgSlewAborted
  | None => logging_error MsgTargetNotFound
  end.

(** The body of the capture loop, for the loop variable [i]. *)
Definition sequence_step (exposure_time : Z) (filter_name directory : string) (i : Z)
  : M unit :=
  (if negb (i =? 0)%Z then dither else mret tt);;
  capture_image exposure_time filter_name directory (i + 1).

Definition observatory_sequence (target base_directory filter_name : string)
    (exposure_count exposure_time : Z) : M unit :=
  coords ← get_coordinates target;
  match coords with
  | Some coords =>
      altitude ← check_altitude coords;
      continue ← check_continue_sequence altitude;
      if continue : bool then
        directory ← create_directory base_directory target;
        enable_multi_star_guiding;;
        start_guiding;;
        for_each (range exposure_count) (sequence_step exposure_time filter_name directory);;
        stop_guiding;;
        logging_info (MsgSequenceComplete directory)
      else logging_info MsgSequenceAborted
  | None => logging_error MsgTargetNotFound
  end.

(** ** A sample world *)

Definition M42 : Coords := SkyCoord (83822 # 1000) (-(5391 # 1000)).

(** A clock that starts on 2024-08-07 at 22:30 and is one minute further at
    every reading. *)
Definition sample_clock (k : nat) : DateTime :=
  let m := (22 * 60 + 30 + N.of_nat k)%N in
  mkDateTime 2024 8 (7 + (m / 1440) mod 20) ((m / 60) mod 24) (m mod 60).

Definition sample_world (altitude : Q) (status : option string) (lines : list string)
  : World :=
  mkWorld (fun name => if String.eqb name "M42" then Some M42 else None)
          (fun _ => altitude)
          (fun _ => status)
          sample_clock 0 lines.

(** ** What a capture, a dither move and the capture loop emit *)

Definition capture_events (filter_position exposure_time : Z) (filename : string)
  : list Event :=
  [ IndiNumber "ZWO EFW" "FILTER_SLOT" "FILTER_SLOT_VALUE" filter_position;
    Sleep 2;
    IndiNumber "ZWO CCD ASI183MM Pro" "CCD_EXPOSURE" "CCD_EXPOSURE_VALUE" exposure_time;
    Sleep (exposure_time + 2);
    IndiText "ZWO CCD ASI183MM Pro" "CCD_SAVE" "CCD_SAVE_PATH" filename;
    Log INFO (MsgCaptured filename) ].

Definition dither_events : list Event :=
  [ IndiNumber "iOptron IEQ Pro" "TELESCOPE_MOTION_NS" "TELESCOPE_MOTION_NS_VALUE" 1;
    Sleep 1;
    IndiNumber "iOptron IEQ Pro" "TELESCOPE_MOTION_WE" "TELESCOPE_MOTION_WE_VALUE" 1;
    Sleep 1;
    IndiNumber "iOptron IEQ Pro" "TELESCOPE_MOTION_NS" "TELESCOPE_MOTION_NS_VALUE" 0;
    IndiNumber "iOptron IEQ Pro" "TELESCOPE_MOTION_WE" "TELESCOPE_MOTION_WE_VALUE" 0 ].

(** Events of the loop body for loop variable [i], the clock being read for
    the [t]-th time. *)
Definition step_events (clock : nat -> DateTime) (t : nat)
    (filter_position exposure_time : Z) (filter_name directory : string) (i : nat)
  : list Event :=
  (match i with O => [] | S _ => dither_events end)
  ++ capture_events filter_position exposure_time
       (frame_filename directory filter_name (strftime (clock t)) (Z.of_nat i + 1)).

Fixpoint loop_events (clock : nat -> DateTime) (t : nat)
    (filter_position exposure_time : Z) (filter_name directory : string)
    (indices : list nat) : list Event :=
  match indices with
  | [] => []
  | i :: rest =>
      step_events clock t filter_position exposure_time filter_name directory i
      ++ loop_events clock (S t) filter_position exposure_time filter_name directory rest
  end.

Fixpoint advance (k : nat) (w : World) : World :=
  match k with
  | O => w
  | S k' => advance k' (tick w)
  end.

(** ** Reading a trace *)

Definition is_indi_number (device property : string) (e : Event) : bool :=
  match e with
  | IndiNumber d p _ _ => String.eqb d device && String.eqb p property
  | _ => false
  end.

(** The camera is told to expose: the command that makes a capture. *)
Definition is_exposure : Event -> bool :=
  is_indi_number "ZWO CCD ASI183MM Pro" "CCD_EXPOSURE".

(** The camera is told to save a frame. *)
Definition is_save (e : Event) : bool :=
  match e with
  | IndiText d p _ _ => String.eqb d "ZWO CCD ASI183MM Pro" && String.eqb p "CCD_SAVE"
  | _ => false
  end.

(** Any device command issued by [capture_image]. *)
Definition is_capture_command (e : Event) : bool :=
  is_indi_number "ZWO EFW" "FILTER_SLOT" e || is_exposure e || is_save e.

(** Any command to one of the two mount motion axes. *)
Definition is_mount_motion (e : Event) : bool :=
  is_indi_number "iOptron IEQ Pro" "TELESCOPE_MOTION_NS" e
  || is_indi_number "iOptron IEQ Pro" "TELESCOPE_MOTION_WE" e.

(** The first command of a dither move. *)
Definition is_dither_start (e : Event) : bool :=
  match e with
  | IndiNumber d p _ v =>
      String.eqb d "iOptron IEQ Pro" && String.eqb p "TELESCOPE_MOTION_NS" && (v =? 1)%Z
  | _ => false
  end.

Definition is_slew (e : Event) : bool :=
  match e with
  | IndiCoord _ _ _ _ => true
  | _ => false
  end.

Definition is_http_get (path : string) (e : Event) : bool :=
  match e with
  | HttpGet url _ => String.eqb url (PHD2_API_URL +:+ path)
  | _ => false
  end.

Definition is_guide_start : Event -> bool := is_http_get "/guide".
Definition is_guide_stop : Event -> bool := is_http_get "/stop_capture".

(** Anything sent to the devices or to the guiding daemon. *)
Definition is_device_action (e : Event) : bool :=
  match e with
  | IndiGetProperty _ _ | IndiNumber _ _ _ _ | IndiCoord _ _ _ _
  | IndiText _ _ _ _ | HttpGet _ _ => true
  | _ => false
  end.

Definition is_makedirs (e : Event) : bool :=
  match e with
  | MakeDirs _ => true
  | _ => false
  end.

Definition is_error_log (e : Event) : bool :=
  match e with
  | Log ERROR _ => true
  | _ => false
  end.

(** Number of events of a kind in a trace. *)
Definition count (kind : Event -> bool) (tr : list Event) : nat :=
  length (List.filter kind tr).

(** The frame files a trace saves, in order. *)
Fixpoint saved_paths (tr : list Event) : list string :=
  match tr with
  | [] => []
  | e :: tr' =>
      match e with
      | IndiText _ _ _ path =>
          if is_save e then path :: saved_paths tr' else saved_paths tr'
      | _ => saved_paths tr'
      end
  end.

(** The run reached the altitude gate and was let through. *)
Definition passes_gate (w : World) (altitude : Q) : Prop :=
  result_of (check_continue_sequence altitude w) = Ok true.

(** The run logged completion. *)
Definition successful (o : Result unit * list Event * World) : Prop :=
  exists directory, Log INFO (MsgSequenceComplete directory) ∈ events_of o.

(** What the capture loop can emit. *)
Definition is_loop_event (e : Event) : bool :=
  match e with
  | IndiNumber _ _ _ _ | IndiText _ _ _ _ | Sleep _ => true
  | Log INFO (MsgCaptured _) => true
  | _ => false
  end.

Definition is_completion_log (e : Event) : bool :=
  match e with
  | Log INFO (MsgSequenceComplete _) => true
  | _ => false
  end.

(** ** Frame file names *)

(** [s] consists of exactly [k] decimal digits. *)
Definition digits (k : nat) (s : string) : Prop :=
  String.length s = k /\ Text.all_digits s = true.

(** The shape [YYYYMMDD_HHMMUT]. *)
Definition timestamp_pattern (ts : string) : Prop :=
  exists y mo d h mi : string,
    ts = y +:+ mo +:+ d +:+ "_" +:+ h +:+ mi +:+ "UT"
    /\ digits 4 y /\ digits 2 mo /\ digits 2 d /\ digits 2 h /\ digits 2 mi.

(** The index field of the [k]-th frame on exactly four digits. *)
Definition four_digit_index (k : nat) (index : string) : Prop :=
  digits 4 index /\ Text.parse_N index = Some (N.of_nat k).

(** The index field of the [k]-th frame as [:04d] writes it: the decimal
    digits of [k], zero-padded to four digits when [k] has fewer. *)
Definition padded_index (k : nat) (index : string) : Prop :=
  Text.all_digits index = true
  /\ Text.parse_N index = Some (N.of_nat k)
  /\ (4 <= String.length index)%nat
  /\ ((Z.of_nat k <= 9999)%Z -> String.length index = 4%nat).

(** [path] is [{directory}/{filter}_{YYYYMMDD_HHMMUT}_{index}.fits] with the
    index field of the [k]-th frame. *)
Definition frame_pattern (index_ok : nat -> string -> Prop)
    (directory filter_name : string) (k : nat) (path : string) : Prop :=
  exists ts index : string,
    path = frame_path directory filter_name ts index
    /\ timestamp_pattern ts
    /\ index_ok k index.

(** ** Guiding results and dither pulses *)

(** The same world with another guiding daemon. *)
Definition set_guider (w : World) (answers : string -> option string) : World :=
  mkWorld (resolver w) (sky_altitude w) answers (wall_clock w) (ticks w) (stdin w).

(** The pulses of a trace: the non-zero values sent to the mount motion
    axes, each with the property of the axis it is sent to. *)
Fixpoint motion_pulses (tr : list Event) : list (string * Z) :=
  match tr with
  | [] => []
  | e :: tr' =>
      match e with
      | IndiNumber _ property _ v =>
          if is_mount_motion e && negb (v =? 0)%Z
          then (property, v) :: motion_pulses tr'
          else motion_pulses tr'
      | _ => motion_pulses tr'
      end
  end.

(** The two axes are pulsed in opposite directions: the values sent to them
    have opposite signs. *)
Definition opposite_direction_pulses (tr : list Event) : Prop :=
  exists v_ns v_we : Z,
    ("TELESCOPE_MOTION_NS", v_ns) ∈ motion_pulses tr
    /\ ("TELESCOPE_MOTION_WE", v_we) ∈ motion_pulses tr
    /\ (v_ns * v_we < 0)%Z.

(** ** Further readings of a trace *)

(** Any call to the guiding daemon. *)
Definition is_guider_call (e : Event) : bool :=
  match e with
  | HttpGet _ _ => true
  | _ => false
  end.

(** The filter wheel is told to move. *)
Definition is_filter_slot : Event -> bool := is_indi_number "ZWO EFW" "FILTER_SLOT".

(** The seconds a trace spends in [time.sleep]. *)
Fixpoint total_sleep (tr : list Event) : Z :=
  match tr with
  | [] => 0
  | Sleep seconds :: tr' => seconds + total_sleep tr'
  | _ :: tr' => total_sleep tr'
  end.

(** The world a run leaves behind. *)
Definition world_after {A} (o : Result A * list Event * World) : World := o.2.

(** A number sent to a device agrees with the plan of the run: a filter
    wheel command carries the table position of the filter, an exposure
    command the exposure time. *)
Definition commanded_as_planned (filter_name : string) (exposure_time : Z) (e : Event)
  : Prop :=
  match e with
  | IndiNumber _ _ _ v =>
      (is_filter_slot e = true ->
         filters !! filter_name = Some v /\ (1 <= v <= 6)%Z)
      /\ (is_exposure e = true -> v = exposure_time)
  | _ => True
  end.

(** ** The remaining commands and the dispatcher

    The commands below add three kinds of action to those of the sequencer
    (a switch written to a device, a shell command, three more log records)
    and one more exception, the [TypeError] of a call whose keywords do not
    fit the function called. *)

(** The further log records of the module. *)
Inductive Notice :=
  | MsgSet (device property_name value : string)  (* "Set {device} {property_name} to {value}" *)
  | MsgFocusingComplete                           (* "Focusing complete." *)
  | MsgUnknownCommand (command : string).         (* "Unknown command: {command}" *)

Inductive Action :=
  | Core (e : Event)
  | IndiSwitch (device property value : string)
  | System (command : string)
  | Note (level : Level) (msg : Notice).

Inductive Fault :=
  | Raised (e : Exn)
  | TypeError.

(** Procedures over the larger vocabulary. *)
Definition Cmd (A : Type) : Type := World -> (A + Fault) * list Action * World.

#[global] Instance Cmd_ret : MRet Cmd := fun A a w => (inl a, [], w).

#[global] Instance Cmd_bind : MBind Cmd := fun A B f m w =>
  match m w with
  | (inl a, t1, w1) =>
      match f a w1 with
      | (r, t2, w2) => (r, t1 ++ t2, w2)
      end
  | (inr x, t1, w1) => (inr x, t1, w1)
  end.

Definition act (a : Action) : Cmd unit := fun w => (inl tt, [a], w).

Definition throw {A} (x : Fault) : Cmd A := fun w => (inr x, [], w).

(** A procedure of the sequencer, run as it is. *)
Definition lift {A} (m : M A) : Cmd A := fun w =>
  match m w with
  | (Ok a, t, w') => (inl a, Core <$> t, w')
  | (Raise e, t, w') => (inr (Raised e), Core <$> t, w')
  end.

Definition red_light_device : string := "Red Light".
Definition telescope_cover_device : string := "Telescope Cover".
Definition roof_device : string := "Observatory Roof".
Definition focuser_device : string := "ZWO EAF".

Definition set_device_property (device property_name value : string) : Cmd unit :=
  act (IndiSwitch device property_name value);;
  act (Note INFO (MsgSet device property_name value)).

Definition focus : Cmd unit :=
  lift (emit (IndiNumber focuser_device "FOCUS_MOTION" "FOCUS_MOTION_VALUE" 1));;
  lift (sleep 2);;
  lift (emit (IndiNumber focuser_device "FOCUS_MOTION" "FOCUS_MOTION_VALUE" 0));;
  act (Note INFO MsgFocusingComplete).

(** [os.system(f"ds9 {filepath} &")] *)
Definition show_image (directory image_name : string) : Cmd unit :=
  let filepath := directory +:+ "/" +:+ image_name +:+ ".fits" in
  act (System ("ds9 " +:+ filepath +:+ " &")).

Definition observatory_set_light (state : string) : Cmd unit :=
  set_device_property red_light_device "LIGHT_STATE" state.

Definition observatory_telescope_cover (state : string) : Cmd unit :=
  set_device_property telescope_cover_device "COVER_STATE" state.

Definition observatory_focus : Cmd unit := focus.

Definition observatory_showimage (directory image_name : string) : Cmd unit :=
  show_image directory image_name.

Definition observatory_roof (state : string) : Cmd unit :=
  set_device_property roof_device "ROOF_STATE" state.

(** Keyword arguments.  The keywords the functions of the module know carry
    values of the type those functions use (names and states are strings,
    the exposure count and time integers); any other keyword is kept by name
    only, its value never being looked at. *)
Module Kw.

Record t := make {
  state : option string;
  target_name : option string;
  target : option string;
  base_directory : option string;
  filter_name : option string;
  exposure_count : option Z;
  exposure_time : option Z;
  directory : option string;
  image_name : option string;
  unexpected : list string
}.

Definition key {A} (name : string) (value : option A) : list string :=
  match value with
  | Some _ => [name]
  | None => []
  end.

(** The keywords present, in a fixed order. *)
Definition keys (kw : t) : list string :=
  key "state" (state kw) ++ key "target_name" (target_name kw)
  ++ key "target" (target kw) ++ key "base_directory" (base_directory kw)
  ++ key "filter_name" (filter_name kw) ++ key "exposure_count" (exposure_count kw)
  ++ key "exposure_time" (exposure_time kw) ++ key "directory" (directory kw)
  ++ key "image_name" (image_name kw) ++ unexpected kw.

Definition none : t := make None None None None None None None None None [].

Definition of_state (s : string) : t :=
  make (Some s) None None None None None None None None [].

Definition of_target_name (name : string) : t :=
  make None (Some name) None None None None None None None [].

Definition of_sequence (tgt base filt : string) (n e : Z) : t :=
  make None None (Some tgt) (Some base) (Some filt) (Some n) (Some e) None None [].

Definition of_showimage (dir image : string) : t :=
  make None None None None None None None (Some dir) (Some image) [].

End Kw.

(** Calling [f] with the keyword arguments: the call binds when the keywords
    are exactly the parameters of [f], and is a [TypeError] otherwise. *)
Definition binds (parameters : list string) (kw : Kw.t) : bool :=
  bool_decide (Kw.keys kw = parameters).

Definition call_set_light (kw : Kw.t) : Cmd unit :=
  match Kw.state kw with
  | Some state => if binds ["state"] kw then observatory_set_light state else throw TypeError
  | None => throw TypeError
  end.

Definition call_telescope_cover (kw : Kw.t) : Cmd unit :=
  match Kw.state kw with
  | Some state =>
      if binds ["state"] kw then observatory_telescope_cover state else throw TypeError
  | None => throw TypeError
  end.

Definition call_target (kw : Kw.t) : Cmd unit :=
  match Kw.target_name kw with
  | Some target_name =>
      if binds ["target_name"] kw then lift (observatory_target target_name)
      else throw TypeError
  | None => throw TypeError
  end.

Definition call_sequence (kw : Kw.t) : Cmd unit :=
  match Kw.target kw, Kw.base_directory kw, Kw.filter_name kw,
        Kw.exposure_count kw, Kw.exposure_time kw with
  | Some target, Some base_directory, Some filter_name,
    Some exposure_count, Some exposure_time =>
      if binds ["target"; "base_directory"; "filter_name";
                "exposure_count"; "exposure_time"] kw
      then lift (observatory_sequence target base_directory filter_name
                   exposure_count exposure_time)
      else throw TypeError
  | _, _, _, _, _ => throw TypeError
  end.

Definition call_focus (kw : Kw.t) : Cmd unit :=
  if binds [] kw then observatory_focus else throw TypeError.

Definition call_showimage (kw : Kw.t) : Cmd unit :=
  match Kw.directory kw, Kw.image_name kw with
  | Some directory, Some image_name =>
      if binds ["directory"; "image_name"] kw
      then observatory_showimage directory image_name
      else throw TypeError
  | _, _ => throw TypeError
  end.

Definition call_roof (kw : Kw.t) : Cmd unit :=
  match Kw.state kw with
  | Some state => if binds ["state"] kw then observatory_roof state else throw TypeError
  | None => throw TypeError
  end.

Definition commands : gmap string (Kw.t -> Cmd unit) :=
  list_to_map
    [ ("set_light", call_set_light);
      ("telescope_cover", call_telescope_cover);
      ("target", call_target);
      ("sequence", call_sequence);
      ("focus", call_focus);
      ("showimage", call_showimage);
      ("roof", call_roof) ].

(** The dispatcher.  A keyword named [command] clashes with the positional
    parameter of the dispatcher itself: such a call is a [TypeError] before
    the body runs. *)
Definition observatory (command : string) (kwargs : Kw.t) : Cmd unit :=
  if bool_decide ("command" ∈ Kw.unexpected kwargs) then throw TypeError
  else
    match commands !! command with
    | Some f => f kwargs
    | None => act (Note ERROR (MsgUnknownCommand command))
    end.

(** The parameters of the function behind each command name. *)
Definition signatures : list (string * list string) :=
  [ ("set_light", ["state"]);
    ("telescope_cover", ["state"]);
    ("target", ["target_name"]);
    ("sequence", ["target"; "base_directory"; "filter_name";
                  "exposure_count"; "exposure_time"]);
    ("focus", []);
    ("showimage", ["directory"; "image_name"]);
    ("roof", ["state"]) ].

(** Projections of a dispatched run. *)
Definition outcome_of {A} (o : (A + Fault) * list Action * World) : A + Fault := o.1.1.
Definition actions_of {A} (o : (A + Fault) * list Action * World) : list Action := o.1.2.

(** A clock stopped at 2024-08-07 22:30: every reading falls in the same
    minute. *)
Definition frozen_clock (k : nat) : DateTime := mkDateTime 2024 8 7 22 30.

Definition frozen_world (ticks_so_far : nat) : World :=
  mkWorld (fun name => if String.eqb name "M42" then Some M42 else None)
          (fun _ => 45%Q)
          (fun _ => Some "OK")
          frozen_clock ticks_so_far [].

(** * Properties *)

Example format_04d_7 : Text.format_04d 7 = "0007".
Proof. reflexivity. Qed.

Example format_04d_10000 : Text.format_04d 10000 = "10000".
Proof. reflexivity. Qed.

Example format_04d_negative : Text.format_04d (-5) = "-005".
Proof. reflexivity. Qed.

Example lower_Yes : Text.lower "Yes" = "yes".
Proof. reflexivity. Qed.

Example strftime_sample : strftime (sample_clock 0) = "20240807_2230UT".
Proof. reflexivity. Qed.

Example filters_R : filters !! "R" = Some 2%Z.
Proof. reflexivity. Qed.

Example filters_lowercase_r : filters !! "r" = None.
Proof. reflexivity. Qed.

Example sequence_M42_R_2 :
  events_of (observatory_sequence "M42" "/images" "R" 2 10
               (sample_world 45 (Some "OK") [])) =
  [ SimbadQuery "M42";
    IndiGetProperty "iOptron IEQ Pro" "GEOGRAPHIC_COORD";
    MakeDirs "/images/M42_20240807_2230UT";
    HttpGet "http://localhost:4400/set_dec_guide_mode" [("mode", "multistar")];
    HttpGet "http://localhost:4400/guide" [];
    IndiNumber "ZWO EFW" "FILTER_SLOT" "FILTER_SLOT_VALUE" 2;
    Sleep 2;
    IndiNumber "ZWO CCD ASI183MM Pro" "CCD_EXPOSURE" "CCD_EXPOSURE_VALUE" 10;
    Sleep 12;
    IndiText "ZWO CCD ASI183MM Pro" "CCD_SAVE" "CCD_SAVE_PATH"
      "/images/M42_20240807_2230UT/R_20240807_2231UT_0001.fits";
    Log INFO (MsgCaptured "/images/M42_20240807_2230UT/R_20240807_2231UT_0001.fits");
    IndiNumber "iOptron IEQ Pro" "TELESCOPE_MOTION_NS" "TELESCOPE_MOTION_NS_VALUE" 1;
    Sleep 1;
    IndiNumber "iOptron IEQ Pro" "TELESCOPE_MOTION_WE" "TELESCOPE_MOTION_WE_VALUE" 1;
    Sleep 1;
    IndiNumber "iOptron IEQ Pro" "TELESCOPE_MOTION_NS" "TELESCOPE_MOTION_NS_VALUE" 0;
    IndiNumber "iOptron IEQ Pro" "TELESCOPE_MOTION_WE" "TELESCOPE_MOTION_WE_VALUE" 0;
    IndiNumber "ZWO EFW" "FILTER_SLOT" "FILTER_SLOT_VALUE" 2;
    Sleep 2;
    IndiNumber "ZWO CCD ASI183MM Pro" "CCD_EXPOSURE" "CCD_EXPOSURE_VALUE" 10;
    Sleep 12;
    IndiText "ZWO CCD ASI183MM Pro" "CCD_SAVE" "CCD_SAVE_PATH"
      "/images/M42_20240807_2230UT/R_20240807_2232UT_0002.fits";
    Log INFO (MsgCaptured "/images/M42_20240807_2230UT/R_20240807_2232UT_0002.fits");
    HttpGet "http://localhost:4400/stop_capture" [];
    Log INFO (MsgSequenceComplete "/images/M42_20240807_2230UT") ].
Proof. vm_compute. reflexivity. Qed.

Lemma run_bind {A B} (m : M A) (f : A -> M B) (w : World) :
  (m ≫= f) w =
  match m w with
  | (Ok a, t1, w1) => match f a w1 with (r, t2, w2) => (r, t1 ++ t2, w2) end
  | (Raise e, t1, w1) => (Raise e, t1, w1)
  end.
Proof. reflexivity. Qed.

Lemma dither_run (w : World) : dither w = (Ok tt, dither_events, w).
Proof. reflexivity. Qed.

(** The three ways a capture can go. *)
Lemma capture_image_run (exposure_time : Z) (filter_name directory : string)
    (count : Z) (w : World) :
  capture_image exposure_time filter_name directory count w =
  match filters !! filter_name with
  | None => (Raise (KeyError filter_name), [], w)
  | Some p =>
      match sleep_fault (exposure_time + 2) with
      | Some x =>
          (Raise x,
           [ IndiNumber "ZWO EFW" "FILTER_SLOT" "FILTER_SLOT_VALUE" p;
             Sleep 2;
             IndiNumber "ZWO CCD ASI183MM Pro" "CCD_EXPOSURE" "CCD_EXPOSURE_VALUE"
               exposure_time ], w)
      | None =>
          (Ok tt,
           capture_events p exposure_time
             (frame_filename directory filter_name (strftime (wall_clock w (ticks w)))
                count),
           tick w)
      end
  end.
Proof.
  unfold capture_image. rewrite run_bind.
  destruct (filters !! filter_name) as [p|]; [|reflexivity].
  unfold sleep.
  destruct (sleep_fault (exposure_time + 2)); reflexivity.
Qed.

Lemma sleep_fault_None (seconds : Z) :
  sleep_fault seconds = None <-> (0 <= seconds <= 9223372036)%Z.
Proof.
  unfold sleep_fault.
  destruct (Z.ltb_spec (seconds * 1000000000) (- 9223372036854775808));
    destruct (Z.ltb_spec 9223372036854775807 (seconds * 1000000000));
    destruct (Z.ltb_spec seconds 0); cbn [orb];
    split; try discriminate; try reflexivity; lia.
Qed.

(** The limits of [time.sleep], on both sides. *)
Example sleep_fault_limits :
  sleep_fault 0 = None
  /\ sleep_fault 9223372036 = None
  /\ sleep_fault 9223372037 = Some OverflowError
  /\ sleep_fault (-1) = Some (ValueError "sleep length must be non-negative")
  /\ sleep_fault (-9223372036) = Some (ValueError "sleep length must be non-negative")
  /\ sleep_fault (-9223372037) = Some OverflowError.
Proof. repeat split. Qed.

(** A wait that is negative or too long raises one of two exceptions. *)
Lemma sleep_fault_Some (seconds : Z) :
  (seconds < 0)%Z \/ (9223372036 < seconds)%Z ->
  exists x, sleep_fault seconds = Some x
            /\ (x = ValueError "sleep length must be non-negative" \/ x = OverflowError).
Proof.
  intros H. unfold sleep_fault.
  destruct (Z.ltb_spec (seconds * 1000000000) (- 9223372036854775808));
    destruct (Z.ltb_spec 9223372036854775807 (seconds * 1000000000));
    destruct (Z.ltb_spec seconds 0); cbn [orb]; eauto; lia.
Qed.

(** Waits that add up to at most 10^9 seconds are each taken. *)
Lemma sleep_fault_fits (exposure_count exposure_time : Z) :
  (0 <= exposure_time + 2)%Z ->
  (1 <= exposure_count)%Z ->
  (exposure_count * (exposure_time + 6) <= 1000000000)%Z ->
  sleep_fault (exposure_time + 2) = None.
Proof.
  intros Ht Hn Hfit. apply sleep_fault_None. nia.
Qed.

Lemma Qlt_bool_iff (x y : Q) : Qlt_bool x y = true <-> (x < y)%Q.
Proof.
  unfold Qlt_bool. rewrite negb_true_iff. split.
  - intros H. apply Qnot_le_lt. intros Hle. apply Qle_bool_iff in Hle. congruence.
  - intros H. destruct (Qle_bool y x) eqn:E; [|reflexivity].
    apply Qle_bool_iff in E. exfalso. exact (Qlt_not_le _ _ H E).
Qed.

Lemma Qlt_bool_false_iff (x y : Q) : Qlt_bool x y = false <-> (y <= x)%Q.
Proof.
  unfold Qlt_bool. rewrite negb_false_iff. apply Qle_bool_iff.
Qed.

(** The altitude gate, by cases. *)
Lemma check_continue_sequence_run (altitude : Q) (w : World) :
  check_continue_sequence altitude w =
  if Qlt_bool altitude 20 then
    match stdin w with
    | [] => (Raise EOFError, [Prompt altitude], w)
    | response :: rest =>
        (Ok (bool_decide (Text.lower response = "y")), [Prompt altitude], set_stdin w rest)
    end
  else (Ok true, [], w).
Proof.
  unfold check_continue_sequence.
  destruct (Qlt_bool altitude 20); [|reflexivity].
  rewrite run_bind. unfold input. destruct (stdin w); reflexivity.
Qed.

Lemma sequence_step_run (exposure_time : Z) (filter_name directory : string)
    (i : nat) (w : World) :
  sequence_step exposure_time filter_name directory (Z.of_nat i) w =
  match capture_image exposure_time filter_name directory (Z.of_nat i + 1) w with
  | (r, t, w') => (r, (match i with O => [] | S _ => dither_events end) ++ t, w')
  end.
Proof.
  unfold sequence_step. rewrite run_bind.
  destruct i as [|i].
  - change (negb (Z.of_nat 0 =? 0)%Z) with false.
    cbv [mret M_ret]. cbv iota beta.
    destruct (capture_image _ _ _ _ w) as [[r t] w']. reflexivity.
  - replace (negb (Z.of_nat (S i) =? 0)%Z) with true
      by (symmetry; apply negb_true_iff, Z.eqb_neq; lia).
    rewrite dither_run.
    destruct (capture_image _ _ _ _ w) as [[r t] w']. reflexivity.
Qed.

Section Loop.

Variables (exposure_time : Z) (filter_name directory : string).

Let step := sequence_step exposure_time filter_name directory.

(** With a known filter and a camera wait that is taken, the loop runs to
    its end and emits one block per index. *)
Lemma for_each_run_ok (p : Z) :
  filters !! filter_name = Some p ->
  sleep_fault (exposure_time + 2) = None ->
  forall (indices : list nat) (w : World),
    for_each (map Z.of_nat indices) step w =
    (Ok tt,
     loop_events (wall_clock w) (ticks w) p exposure_time filter_name directory indices,
     advance (length indices) w).
Proof.
  intros Hf Ht indices. induction indices as [|i rest IH]; intros w.
  - reflexivity.
  - simpl for_each. rewrite run_bind. unfold step at 1.
    rewrite sequence_step_run, capture_image_run, Hf, Ht.
    rewrite IH. simpl. unfold step_events. rewrite <- !app_assoc. reflexivity.
Qed.

(** Otherwise the first capture raises, before any frame is saved. *)
Lemma for_each_run_raise (indices : list nat) (w : World) (x : Exn) :
  filters !! filter_name = None \/ sleep_fault (exposure_time + 2) = Some x ->
  for_each (map Z.of_nat (0%nat :: indices)) step w =
  match filters !! filter_name with
  | None => (Raise (KeyError filter_name), [], w)
  | Some p =>
      (Raise x,
       [ IndiNumber "ZWO EFW" "FILTER_SLOT" "FILTER_SLOT_VALUE" p;
         Sleep 2;
         IndiNumber "ZWO CCD ASI183MM Pro" "CCD_EXPOSURE" "CCD_EXPOSURE_VALUE"
           exposure_time ], w)
  end.
Proof.
  intros H. simpl for_each. rewrite run_bind. unfold step at 1.
  rewrite (sequence_step_run _ _ _ 0), capture_image_run.
  destruct (filters !! filter_name) as [p|]; [|reflexivity].
  destruct H as [H|H]; [discriminate|].
  rewrite H. reflexivity.
Qed.

End Loop.

Lemma range_unfold (n : Z) : range n = map Z.of_nat (seq 0 (Z.to_nat n)).
Proof. reflexivity. Qed.

(** The sequence command, phase by phase. *)
Lemma observatory_sequence_run (target base_directory filter_name : string)
    (exposure_count exposure_time : Z) (w : World) :
  observatory_sequence target base_directory filter_name exposure_count exposure_time w =
  match resolver w target with
  | None =>
      (Ok tt,
       [ SimbadQuery target; Log ERROR (MsgObjectNotFound target);
         Log ERROR MsgTargetNotFound ], w)
  | Some coords =>
      let pre := [ SimbadQuery target;
                   IndiGetProperty "iOptron IEQ Pro" "GEOGRAPHIC_COORD" ] in
      match check_continue_sequence (sky_altitude w coords) w with
      | (Raise x, g, w1) => (Raise x, pre ++ g, w1)
      | (Ok false, g, w1) => (Ok tt, pre ++ g ++ [Log INFO MsgSequenceAborted], w1)
      | (Ok true, g, w1) =>
          let directory :=
            base_directory +:+ "/" +:+ target +:+ "_"
            +:+ strftime (wall_clock w1 (ticks w1)) in
          let start :=
            [ MakeDirs directory;
              HttpGet (PHD2_API_URL +:+ "/set_dec_guide_mode") [("mode", "multistar")];
              HttpGet (PHD2_API_URL +:+ "/guide") [] ] in
          match for_each (range exposure_count)
                  (sequence_step exposure_time filter_name directory) (tick w1) with
          | (Ok _, l, w2) =>
              (Ok tt,
               pre ++ g ++ start ++ l
               ++ [ HttpGet (PHD2_API_URL +:+ "/stop_capture") [];
                    Log INFO (MsgSequenceComplete directory) ], w2)
          | (Raise x, l, w2) => (Raise x, pre ++ g ++ start ++ l, w2)
          end
      end
  end.
Proof.
  unfold observatory_sequence. rewrite run_bind.
  unfold get_coordinates. rewrite run_bind. unfold simbad_query.
  destruct (resolver w target) as [coords|]; [|reflexivity].
  cbn [mret M_ret app]. rewrite run_bind. 
  unfold check_altitude. rewrite run_bind. cbn [emit transform_to_altaz app].
  rewrite run_bind.
  destruct (check_continue_sequence (sky_altitude w coords) w) as [[[[|]|x] g] w1];
    [| reflexivity | reflexivity].
  rewrite run_bind. unfold create_directory. rewrite run_bind.
  cbn [now_strftime]. rewrite run_bind. cbn [emit mret M_ret app].
  rewrite run_bind. unfold enable_multi_star_guiding. rewrite run_bind.
  cbn [requests_get_status mret M_ret app].
  rewrite run_bind. unfold start_guiding. rewrite run_bind.
  cbn [requests_get_status mret M_ret app].
  rewrite run_bind.
  destruct (for_each _ _ (tick w1)) as [[[[]|x] l] w2]; [|reflexivity].
  rewrite run_bind. unfold stop_guiding. rewrite run_bind.
  cbn [requests_get_status mret M_ret app]. 
  reflexivity.
Qed.


Lemma observatory_target_run (target_name : string) (w : World) :
  observatory_target target_name w =
  match resolver w target_name with
  | None =>
      (Ok tt,
       [ SimbadQuery target_name; Log ERROR (MsgObjectNotFound target_name);
         Log ERROR MsgTargetNotFound ], w)
  | Some coords =>
      let pre := [ SimbadQuery target_name;
                   IndiGetProperty "iOptron IEQ Pro" "GEOGRAPHIC_COORD" ] in
      match check_continue_sequence (sky_altitude w coords) w with
      | (Raise x, g, w1) => (Raise x, pre ++ g, w1)
      | (Ok false, g, w1) => (Ok tt, pre ++ g ++ [Log INFO MsgSlewAborted], w1)
      | (Ok true, g, w1) =>
          (Ok tt,
           pre ++ g
           ++ [ IndiCoord "iOptron IEQ Pro" "EQUATORIAL_EOD_COORD" (ra coords) (dec coords);
                Sleep 10; Log INFO (MsgSlewed coords) ], w1)
      end
  end.
Proof.
  unfold observatory_target. rewrite run_bind.
  unfold get_coordinates. rewrite run_bind. unfold simbad_query.
  destruct (resolver w target_name) as [coords|]; [|reflexivity].
  cbn [mret M_ret app]. rewrite run_bind.
  unfold check_altitude. rewrite run_bind. cbn [emit transform_to_altaz app].
  rewrite run_bind.
  destruct (check_continue_sequence (sky_altitude w coords) w) as [[[[|]|x] g] w1];
    reflexivity.
Qed.

(** The gate emits at most the prompt and touches nothing but [stdin]. *)
Lemma check_continue_sequence_inv (altitude : Q) (w w1 : World)
    (r : Result bool) (g : list Event) :
  check_continue_sequence altitude w = (r, g, w1) ->
  (g = [] \/ g = [Prompt altitude])
  /\ resolver w1 = resolver w /\ sky_altitude w1 = sky_altitude w
  /\ guider w1 = guider w /\ wall_clock w1 = wall_clock w /\ ticks w1 = ticks w.
Proof.
  rewrite check_continue_sequence_run.
  destruct (Qlt_bool altitude 20); [destruct (stdin w)|];
    intros [= <- <- <-]; simpl; auto 10.
Qed.

Lemma count_app (kind : Event -> bool) (l1 l2 : list Event) :
  count kind (l1 ++ l2) = (count kind l1 + count kind l2)%nat.
Proof. unfold count. rewrite List.filter_app, length_app. reflexivity. Qed.

Lemma count_cons (kind : Event -> bool) (e : Event) (l : list Event) :
  count kind (e :: l) = ((if kind e then 1 else 0) + count kind l)%nat.
Proof. unfold count. simpl. destruct (kind e); reflexivity. Qed.

Lemma count_nil (kind : Event -> bool) : count kind [] = 0%nat.
Proof. reflexivity. Qed.

(** Counting over a trace given by explicit events. *)
Ltac count_explicit := rewrite ?count_cons, ?count_nil; simpl; lia.

Lemma count_zero_Forall (kind : Event -> bool) (l : list Event) :
  count kind l = 0%nat <-> Forall (fun e => kind e = false) l.
Proof.
  induction l as [|e l IH].
  - split; [constructor | reflexivity].
  - rewrite count_cons, Forall_cons. destruct (kind e); split.
    + discriminate.
    + intros [? _]. discriminate.
    + intros H. split; [reflexivity | apply IH, H].
    + intros [_ H]. apply IH, H.
Qed.

Lemma gate_events_count (kind : Event -> bool) (altitude : Q) (g : list Event) :
  kind (Prompt altitude) = false ->
  g = [] \/ g = [Prompt altitude] ->
  count kind g = 0%nat.
Proof.
  intros Hk [-> | ->]; [reflexivity|]. rewrite count_cons, Hk. reflexivity.
Qed.

(** ** Target resolution *)

(** C3: when the resolver does not know the target, the sequence command
    returns after asking the resolver and writing error records to the log:
    nothing is sent to any device or to the guiding daemon, no directory is
    created, and every effect besides the resolver query is an error log
    record. *)
Theorem unresolved_target_only_logs_error
    (target base_directory filter_name : string)
    (exposure_count exposure_time : Z) (w : World) :
  resolver w target = None ->
  let run := observatory_sequence target base_directory filter_name
               exposure_count exposure_time w in
  run = (Ok tt,
         [ SimbadQuery target; Log ERROR (MsgObjectNotFound target);
           Log ERROR MsgTargetNotFound ], w)
  /\ count is_device_action (events_of run) = 0%nat
  /\ count is_makedirs (events_of run) = 0%nat
  /\ (exists msg, Log ERROR msg ∈ events_of run)
  /\ Forall (fun e => e = SimbadQuery target \/ is_error_log e = true) (events_of run).
Proof.
  intros H run. subst run. rewrite observatory_sequence_run, H.
  unfold events_of. simpl. do 3 (split; [reflexivity|]). split.
  - exists MsgTargetNotFound. do 2 apply list_elem_of_further. apply list_elem_of_here.
  - repeat first [apply Forall_nil | apply Forall_cons; split]; auto.
Qed.

Lemma unresolved_target_witness :
  resolver (sample_world 45 (Some "OK") []) "Ghost" = None
  /\ count is_device_action
       (events_of (observatory_sequence "Ghost" "/images" "R" 3 10
                     (sample_world 45 (Some "OK") []))) = 0%nat.
Proof.
  split; [reflexivity|].
  apply (unresolved_target_only_logs_error "Ghost" "/images" "R" 3 10
           (sample_world 45 (Some "OK") [])).
  reflexivity.
Defined.

(** ** The altitude gate *)

Lemma lower_eq_y (response : string) :
  Text.lower response = "y" <-> response = "y" \/ response = "Y".
Proof.
  split.
  - destruct response as [|c [|c' rest]]; simpl; try discriminate.
    intros [= H]. revert H.
    destruct c as [[] [] [] [] [] [] [] []]; vm_compute; intros H;
      try discriminate H; auto.
  - intros [-> | ->]; reflexivity.
Qed.

Lemma check_continue_sequence_high (altitude : Q) (w : World) :
  (20 <= altitude)%Q -> check_continue_sequence altitude w = (Ok true, [], w).
Proof.
  intros H. rewrite check_continue_sequence_run.
  apply Qlt_bool_false_iff in H. rewrite H. reflexivity.
Qed.

Lemma check_continue_sequence_low (altitude : Q) (w : World)
    (response : string) (rest : list string) :
  (altitude < 20)%Q -> stdin w = response :: rest ->
  check_continue_sequence altitude w =
  (Ok (bool_decide (Text.lower response = "y")), [Prompt altitude], set_stdin w rest).
Proof.
  intros H Hin. rewrite check_continue_sequence_run.
  apply Qlt_bool_iff in H. rewrite H, Hin. reflexivity.
Qed.

(** C2: at 20 degrees or more the gate lets the run through without asking
    (no prompt, no line read); below 20 degrees it always asks, and after a
    negative answer both the slew command and the sequence command stop
    right there: the only thing that follows the prompt is the log record of
    the abort, so no slew, no capture and no other device action happens. *)
Theorem altitude_gate_threshold (w : World) (altitude : Q) :
  ((20 <= altitude)%Q ->
     check_continue_sequence altitude w = (Ok true, [], w))
  /\ ((altitude < 20)%Q ->
        events_of (check_continue_sequence altitude w) = [Prompt altitude]
        /\ forall (response : string) (rest : list string)
                  (target : string) (coords : Coords),
             stdin w = response :: rest ->
             Text.lower response <> "y" ->
             resolver w target = Some coords ->
             sky_altitude w coords = altitude ->
             observatory_target target w =
               (Ok tt,
                [ SimbadQuery target;
                  IndiGetProperty "iOptron IEQ Pro" "GEOGRAPHIC_COORD";
                  Prompt altitude; Log INFO MsgSlewAborted ],
                set_stdin w rest)
             /\ count is_slew (events_of (observatory_target target w)) = 0%nat
             /\ forall (base_directory filter_name : string)
                       (exposure_count exposure_time : Z),
                  observatory_sequence target base_directory filter_name
                    exposure_count exposure_time w =
                  (Ok tt,
                   [ SimbadQuery target;
                     IndiGetProperty "iOptron IEQ Pro" "GEOGRAPHIC_COORD";
                     Prompt altitude; Log INFO MsgSequenceAborted ],
                   set_stdin w rest)
                  /\ count is_capture_command
                       (events_of (observatory_sequence target base_directory filter_name
                                     exposure_count exposure_time w)) = 0%nat
                  /\ count is_guide_start
                       (events_of (observatory_sequence target base_directory filter_name
                                     exposure_count exposure_time w)) = 0%nat).
Proof.
  split.
  - apply check_continue_sequence_high.
  - intros Hlow. split.
    + rewrite check_continue_sequence_run.
      apply Qlt_bool_iff in Hlow. rewrite Hlow.
      destruct (stdin w); reflexivity.
    + intros response rest target coords Hin Hno Hres Halt.
      pose proof (check_continue_sequence_low _ _ _ _ Hlow Hin) as Hgate.
      rewrite bool_decide_eq_false_2 in Hgate by assumption.
      rewrite observatory_target_run, Hres, Halt, Hgate.
      split; [reflexivity|]. split; [reflexivity|].
      intros. rewrite observatory_sequence_run, Hres, Halt, Hgate.
      split; [reflexivity|]. split; reflexivity.
Qed.

Lemma altitude_gate_threshold_witness :
  check_continue_sequence 45 (sample_world 45 (Some "OK") ["n"]) =
    (Ok true, [], sample_world 45 (Some "OK") ["n"])
  /\ count is_device_action
       (drop 3 (events_of (observatory_sequence "M42" "/images" "R" 3 10
                             (sample_world 15 (Some "OK") ["n"])))) = 0%nat.
Proof.
  split.
  - apply (altitude_gate_threshold (sample_world 45 (Some "OK") ["n"]) 45).
    vm_compute. discriminate.
  - destruct (altitude_gate_threshold (sample_world 15 (Some "OK") ["n"]) 15)
      as [_ Hlow].
    destruct Hlow as [_ Hdecline]; [reflexivity|].
    destruct (Hdecline "n" [] "M42" M42) as (_ & _ & Hseq);
      [reflexivity | vm_compute; discriminate | reflexivity | reflexivity |].
    rewrite (proj1 (Hseq "/images" "R" 3%Z 10%Z)). reflexivity.
Defined.

(** C10: when the gate asks, the run goes on exactly when the answer,
    lowercased, is the one-character string "y", that is when the operator
    typed "y" or "Y"; any other line (for instance "yes") is a refusal, after
    which the sequence command logs the abort and returns. *)
Theorem confirmation_requires_exactly_y (w : World) (altitude : Q)
    (response : string) (rest : list string) :
  (altitude < 20)%Q ->
  stdin w = response :: rest ->
  check_continue_sequence altitude w =
    (Ok (bool_decide (Text.lower response = "y")), [Prompt altitude], set_stdin w rest)
  /\ (passes_gate w altitude <-> Text.lower response = "y")
  /\ (Text.lower response = "y" <-> response = "y" \/ response = "Y")
  /\ Text.lower "yes" <> "y"
  /\ forall (target : string) (coords : Coords) (base_directory filter_name : string)
            (exposure_count exposure_time : Z),
       resolver w target = Some coords ->
       sky_altitude w coords = altitude ->
       let run := observatory_sequence target base_directory filter_name
                    exposure_count exposure_time w in
       (Text.lower response = "y" -> exists directory, MakeDirs directory ∈ events_of run)
       /\ (Text.lower response <> "y" ->
             run = (Ok tt,
                    [ SimbadQuery target;
                      IndiGetProperty "iOptron IEQ Pro" "GEOGRAPHIC_COORD";
                      Prompt altitude; Log INFO MsgSequenceAborted ],
                    set_stdin w rest)).
Proof.
  intros Hlow Hin.
  pose proof (check_continue_sequence_low _ _ _ _ Hlow Hin) as Hgate.
  split; [exact Hgate|]. split; [|split; [apply lower_eq_y|split; [discriminate|]]].
  - unfold passes_gate. rewrite Hgate. unfold result_of. simpl. split.
    + intros [= H]. apply bool_decide_eq_true in H. exact H.
    + intros H. rewrite bool_decide_eq_true_2 by exact H. reflexivity.
  - intros target coords base_directory filter_name exposure_count exposure_time
      Hres Halt run. subst run.
    rewrite observatory_sequence_run, Hres, Halt, Hgate. split.
    + intros Hy. rewrite bool_decide_eq_true_2 by exact Hy.
      eexists. cbv zeta.
      destruct (for_each _ _ _) as [[[[]|x] l] w2]; unfold events_of; simpl;
        do 3 apply list_elem_of_further; apply list_elem_of_here.
    + intros Hn. rewrite bool_decide_eq_false_2 by exact Hn. reflexivity.
Qed.

Lemma confirmation_requires_exactly_y_witness :
  observatory_sequence "M42" "/images" "R" 3 10 (sample_world 15 (Some "OK") ["yes"]) =
    (Ok tt,
     [ SimbadQuery "M42";
       IndiGetProperty "iOptron IEQ Pro" "GEOGRAPHIC_COORD";
       Prompt 15; Log INFO MsgSequenceAborted ],
     set_stdin (sample_world 15 (Some "OK") ["yes"]) []).
Proof.
  destruct (confirmation_requires_exactly_y (sample_world 15 (Some "OK") ["yes"]) 15
              "yes" []) as (_ & _ & _ & Hyes & Hrun); [reflexivity | reflexivity |].
  destruct (Hrun "M42" M42 "/images" "R" 3%Z 10%Z) as [_ Hdecline];
    [reflexivity | reflexivity |].
  apply Hdecline. exact Hyes.
Defined.

(** ** The filter table *)

Lemma filters_lookup_None (filter_name : string) :
  filters !! filter_name = None <-> filter_name ∉ ["L"; "R"; "G"; "B"; "H"; "O"].
Proof.
  unfold filters. rewrite <- not_elem_of_list_to_map. reflexivity.
Qed.

(** C7: a filter identifier outside the table L, R, G, B, H, O makes
    [capture_image] raise [KeyError] on the table lookup, before anything is
    sent to the filter wheel or the camera: no filter position is chosen in
    its place. *)
Theorem unknown_filter_is_lookup_failure (filter_name : string) :
  filter_name ∉ ["L"; "R"; "G"; "B"; "H"; "O"] ->
  filters !! filter_name = None
  /\ forall (exposure_time : Z) (directory : string) (count : Z) (w : World),
       capture_image exposure_time filter_name directory count w =
       (Raise (KeyError filter_name), [], w).
Proof.
  intros H. apply filters_lookup_None in H. split; [exact H|].
  intros. rewrite capture_image_run, H. reflexivity.
Qed.

Lemma unknown_filter_witness :
  capture_image 10 "X" "/images/M42_20240807_2230UT" 1 (sample_world 45 (Some "OK") []) =
  (Raise (KeyError "X"), [], sample_world 45 (Some "OK") []).
Proof.
  apply (unknown_filter_is_lookup_failure "X").
  apply filters_lookup_None. reflexivity.
Defined.

(** ** The sequence command *)

(** C9: with an exposure count of zero, a run that resolves its target and
    passes the gate still creates the output directory, calls the guiding
    daemon three times (guide mode, start, stop) and logs completion; the
    capture loop contributes nothing, so no capture command and no mount
    motion command is issued. *)
Theorem zero_exposures_still_guides (target base_directory filter_name : string)
    (exposure_time : Z) (w : World) (coords : Coords) :
  resolver w target = Some coords ->
  passes_gate w (sky_altitude w coords) ->
  let run := observatory_sequence target base_directory filter_name 0 exposure_time w in
  let directory :=
    base_directory +:+ "/" +:+ target +:+ "_" +:+ strftime (wall_clock w (ticks w)) in
  result_of run = Ok tt
  /\ events_of run =
       [ SimbadQuery target; IndiGetProperty "iOptron IEQ Pro" "GEOGRAPHIC_COORD" ]
       ++ events_of (check_continue_sequence (sky_altitude w coords) w)
       ++ [ MakeDirs directory;
            HttpGet (PHD2_API_URL +:+ "/set_dec_guide_mode") [("mode", "multistar")];
            HttpGet (PHD2_API_URL +:+ "/guide") [];
            HttpGet (PHD2_API_URL +:+ "/stop_capture") [];
            Log INFO (MsgSequenceComplete directory) ]
  /\ count is_capture_command (events_of run) = 0%nat
  /\ count is_mount_motion (events_of run) = 0%nat.
Proof.
  intros Hres Hgate run directory. subst run directory.
  rewrite observatory_sequence_run, Hres.
  unfold passes_gate in Hgate.
  destruct (check_continue_sequence (sky_altitude w coords) w) as [[r g] w1] eqn:E.
  unfold result_of in Hgate. simpl in Hgate. subst r.
  apply check_continue_sequence_inv in E as (Hg & _ & _ & _ & Hclock & Hticks).
  cbv zeta. change (range 0) with (@nil Z). cbn [for_each].
  change ((mret tt : M unit) (tick w1)) with (Ok tt, @nil Event, tick w1).
  unfold result_of, events_of. cbn [fst snd]. rewrite Hclock, Hticks.
  split; [reflexivity|]. split; [reflexivity|].
  cbn [app]. rewrite !count_cons, !count_app.
  rewrite (gate_events_count is_capture_command _ g eq_refl Hg).
  rewrite (gate_events_count is_mount_motion _ g eq_refl Hg).
  split; reflexivity.
Qed.

Lemma zero_exposures_witness :
  events_of (observatory_sequence "M42" "/images" "R" 0 10
               (sample_world 45 (Some "OK") [])) =
  [ SimbadQuery "M42"; IndiGetProperty "iOptron IEQ Pro" "GEOGRAPHIC_COORD";
    MakeDirs "/images/M42_20240807_2230UT";
    HttpGet "http://localhost:4400/set_dec_guide_mode" [("mode", "multistar")];
    HttpGet "http://localhost:4400/guide" [];
    HttpGet "http://localhost:4400/stop_capture" [];
    Log INFO (MsgSequenceComplete "/images/M42_20240807_2230UT") ].
Proof.
  destruct (zero_exposures_still_guides "M42" "/images" "R" 10
              (sample_world 45 (Some "OK") []) M42) as (_ & Hev & _);
    [reflexivity | reflexivity |].
  rewrite Hev. vm_compute. reflexivity.
Defined.

(** *** The capture loop *)

Lemma capture_image_loop_events (exposure_time : Z) (filter_name directory : string)
    (count : Z) (w : World) :
  Forall (fun e => is_loop_event e = true)
         (events_of (capture_image exposure_time filter_name directory count w)).
Proof.
  rewrite capture_image_run.
  destruct (filters !! filter_name); [destruct (sleep_fault _)|];
    unfold events_of; simpl; repeat constructor.
Qed.

Lemma for_each_loop_events (exposure_time : Z) (filter_name directory : string)
    (indices : list nat) (w : World) :
  Forall (fun e => is_loop_event e = true)
         (events_of (for_each (map Z.of_nat indices)
                       (sequence_step exposure_time filter_name directory) w)).
Proof.
  revert w. induction indices as [|i rest IH]; intros w.
  - constructor.
  - simpl for_each. rewrite run_bind, sequence_step_run.
    pose proof (capture_image_loop_events exposure_time filter_name directory
                  (Z.of_nat i + 1) w) as Hc.
    destruct (capture_image _ _ _ _ w) as [[r t] w1].
    unfold events_of in Hc. simpl in Hc.
    assert (Hd : Forall (fun e => is_loop_event e = true)
                   (match i with O => [] | S _ => dither_events end ++ t)).
    { apply Forall_app. split; [|exact Hc].
      destruct i; [constructor | repeat constructor]. }
    destruct r as [[]|x]; [|exact Hd].
    specialize (IH w1).
    destruct (for_each _ _ w1) as [[r2 t2] w2].
    unfold events_of in *. simpl in *. apply Forall_app. split; assumption.
Qed.

Lemma loop_events_count_none (kind : Event -> bool) (l : list Event) :
  (forall e, is_loop_event e = true -> kind e = false) ->
  Forall (fun e => is_loop_event e = true) l ->
  count kind l = 0%nat.
Proof.
  intros Hk Hl. apply count_zero_Forall.
  eapply Forall_impl; [exact Hl|]. exact Hk.
Qed.

Lemma loop_events_exposures (clock : nat -> DateTime) (p e : Z) (f d : string)
    (indices : list nat) (t : nat) :
  count is_exposure (loop_events clock t p e f d indices) = length indices
  /\ count is_save (loop_events clock t p e f d indices) = length indices.
Proof.
  revert t. induction indices as [|i rest IH]; intros t; [split; reflexivity|].
  destruct (IH (S t)) as [IH1 IH2].
  simpl loop_events. unfold step_events. rewrite !count_app, IH1, IH2.
  destruct i; split; reflexivity.
Qed.

Lemma loop_events_dithers (clock : nat -> DateTime) (p e : Z) (f d : string)
    (a n : nat) (t : nat) :
  count is_dither_start (loop_events clock t p e f d (seq (S a) n)) = n
  /\ count is_mount_motion (loop_events clock t p e f d (seq (S a) n)) = (4 * n)%nat.
Proof.
  revert a t. induction n as [|n IH]; intros a t; [split; reflexivity|].
  destruct (IH (S a) (S t)) as [IH1 IH2].
  cbn [seq loop_events]. unfold step_events. rewrite !count_app, IH1, IH2.
  split; [reflexivity|]. change (count is_mount_motion dither_events) with 4%nat.
  change (count is_mount_motion (capture_events _ _ _)) with 0%nat. lia.
Qed.

(** How the loop of a run ends: it completes with one block per index, or
    its first capture raises before any frame is saved. *)
Lemma for_each_range_run (exposure_time : Z) (filter_name directory : string)
    (exposure_count : Z) (w : World) :
  let o := for_each (range exposure_count)
             (sequence_step exposure_time filter_name directory) w in
  (exists p, filters !! filter_name = Some p
     /\ sleep_fault (exposure_time + 2) = None
     /\ o = (Ok tt,
             loop_events (wall_clock w) (ticks w) p exposure_time filter_name directory
               (seq 0 (Z.to_nat exposure_count)),
             advance (Z.to_nat exposure_count) w))
  \/ ((exposure_count <= 0)%Z /\ o = (Ok tt, [], w))
  \/ ((1 <= exposure_count)%Z
      /\ (filters !! filter_name = None \/ sleep_fault (exposure_time + 2) <> None)
      /\ exists x l, o = (Raise x, l, w) /\ saved_paths l = []
                     /\ count is_mount_motion l = 0%nat).
Proof.
  intros o. subst o. rewrite range_unfold.
  destruct (filters !! filter_name) as [p|] eqn:Hf;
    [destruct (sleep_fault (exposure_time + 2)) as [x|] eqn:Ht|].
  - right. destruct (Z.le_gt_cases exposure_count 0) as [Hn|Hn].
    + left. split; [exact Hn|].
      replace (Z.to_nat exposure_count) with 0%nat by lia. reflexivity.
    + right. split; [lia|]. split; [right; discriminate|].
      destruct (Z.to_nat exposure_count) as [|k] eqn:Hk; [lia|].
      simpl seq. rewrite (for_each_run_raise _ _ _ _ _ x) by (right; exact Ht).
      rewrite Hf. eexists _, _. split; [reflexivity|]. split; reflexivity.
  - left. exists p. split; [reflexivity|]. split; [reflexivity|].
    rewrite (for_each_run_ok _ _ _ p Hf Ht), length_seq. reflexivity.
  - right. destruct (Z.le_gt_cases exposure_count 0) as [Hn|Hn].
    + left. split; [exact Hn|].
      replace (Z.to_nat exposure_count) with 0%nat by lia. reflexivity.
    + right. split; [lia|]. split; [left; reflexivity|].
      destruct (Z.to_nat exposure_count) as [|k] eqn:Hk; [lia|].
      simpl seq. rewrite (for_each_run_raise _ _ _ _ _ OverflowError) by (left; exact Hf).
      rewrite Hf. eexists _, _. split; [reflexivity|]. split; reflexivity.
Qed.

(** A run that resolves, passes the gate and is given a known filter and a
    camera wait that is taken goes through all its phases. *)
Lemma observatory_sequence_complete (target base_directory filter_name : string)
    (exposure_count exposure_time : Z) (w : World) (coords : Coords) (p : Z) :
  resolver w target = Some coords ->
  passes_gate w (sky_altitude w coords) ->
  filters !! filter_name = Some p ->
  sleep_fault (exposure_time + 2) = None ->
  exists (g : list Event) (w1 : World),
    check_continue_sequence (sky_altitude w coords) w = (Ok true, g, w1)
    /\ (g = [] \/ g = [Prompt (sky_altitude w coords)])
    /\ let directory :=
         base_directory +:+ "/" +:+ target +:+ "_" +:+ strftime (wall_clock w (ticks w)) in
       observatory_sequence target base_directory filter_name
         exposure_count exposure_time w =
       (Ok tt,
        [ SimbadQuery target; IndiGetProperty "iOptron IEQ Pro" "GEOGRAPHIC_COORD" ]
        ++ g
        ++ [ MakeDirs directory;
             HttpGet (PHD2_API_URL +:+ "/set_dec_guide_mode") [("mode", "multistar")];
             HttpGet (PHD2_API_URL +:+ "/guide") [] ]
        ++ loop_events (wall_clock w) (S (ticks w)) p exposure_time filter_name directory
             (seq 0 (Z.to_nat exposure_count))
        ++ [ HttpGet (PHD2_API_URL +:+ "/stop_capture") [];
             Log INFO (MsgSequenceComplete directory) ],
        advance (Z.to_nat exposure_count) (tick w1)).
Proof.
  intros Hres Hgate Hf Ht. unfold passes_gate in Hgate.
  destruct (check_continue_sequence (sky_altitude w coords) w) as [[r g] w1] eqn:E.
  unfold result_of in Hgate. simpl in Hgate. subst r.
  pose proof (check_continue_sequence_inv _ _ _ _ _ E) as (Hg & _ & _ & _ & Hclock & Hticks).
  exists g, w1. split; [reflexivity|]. split; [exact Hg|].
  cbv zeta. rewrite observatory_sequence_run, Hres, E. cbv zeta.
  rewrite range_unfold, (for_each_run_ok _ _ _ p Hf Ht), length_seq.
  cbn [wall_clock ticks tick]. rewrite Hclock, Hticks. reflexivity.
Qed.

(** C1 (as amended): for every exposure count N >= 1, a run that resolves
    its target, passes the altitude gate, names a filter of the table, has
    an exposure time of at least -2 seconds and waits that add up to at most
    10^9 seconds (N * (exposure_time + 6) <= 10^9) completes, commands
    exactly N exposures (and saves N frames), performs exactly N-1 dither
    moves, and issues no mount motion command before its first exposure
    command. *)
Theorem capture_and_dither_counts (target base_directory filter_name : string)
    (exposure_count exposure_time : Z) (w : World) (coords : Coords) (p : Z) :
  resolver w target = Some coords ->
  passes_gate w (sky_altitude w coords) ->
  filters !! filter_name = Some p ->
  (0 <= exposure_time + 2)%Z ->
  (1 <= exposure_count)%Z ->
  (exposure_count * (exposure_time + 6) <= 1000000000)%Z ->
  let run := observatory_sequence target base_directory filter_name
               exposure_count exposure_time w in
  result_of run = Ok tt
  /\ count is_exposure (events_of run) = Z.to_nat exposure_count
  /\ count is_save (events_of run) = Z.to_nat exposure_count
  /\ count is_dither_start (events_of run) = Z.to_nat (exposure_count - 1)
  /\ count is_mount_motion (events_of run) = (4 * Z.to_nat (exposure_count - 1))%nat
  /\ exists (before : list Event) (first : Event) (after : list Event),
       events_of run = before ++ first :: after
       /\ is_exposure first = true
       /\ count is_exposure before = 0%nat
       /\ count is_mount_motion before = 0%nat.
Proof.
  intros Hres Hgate Hf Ht Hn Hfit run. subst run.
  destruct (observatory_sequence_complete target base_directory filter_name
              exposure_count exposure_time w coords p Hres Hgate Hf
              (sleep_fault_fits _ _ Ht Hn Hfit))
    as (g & w1 & _ & Hg & Hrun).
  cbv zeta in Hrun. rewrite Hrun. clear Hrun.
  unfold result_of, events_of. cbn [fst snd].
  destruct (Z.to_nat exposure_count) as [|k] eqn:Hk; [lia|].
  replace (Z.to_nat (exposure_count - 1)) with k by lia.
  set (clock := wall_clock w). set (t := S (ticks w)).
  set (d := base_directory +:+ "/" +:+ target +:+ "_" +:+ strftime (clock (ticks w))).
  destruct (loop_events_exposures clock p exposure_time filter_name d (seq 0 (S k)) t)
    as [Hexp Hsave].
  rewrite length_seq in Hexp, Hsave.
  split; [reflexivity|].
  split; [|split; [|split; [|split]]].
  - rewrite !count_app, Hexp.
    rewrite (gate_events_count is_exposure _ g eq_refl Hg). count_explicit.
  - rewrite !count_app, Hsave.
    rewrite (gate_events_count is_save _ g eq_refl Hg). count_explicit.
  - rewrite !count_app. cbn [seq loop_events]. rewrite count_app.
    rewrite (proj1 (loop_events_dithers clock p exposure_time filter_name d 0 k (S t))).
    rewrite (gate_events_count is_dither_start _ g eq_refl Hg).
    unfold step_events, capture_events. cbn [app]. count_explicit.
  - rewrite !count_app. cbn [seq loop_events]. rewrite count_app.
    rewrite (proj2 (loop_events_dithers clock p exposure_time filter_name d 0 k (S t))).
    rewrite (gate_events_count is_mount_motion _ g eq_refl Hg).
    unfold step_events, capture_events. cbn [app]. count_explicit.
  - cbn [seq loop_events]. unfold step_events at 1. cbn [app capture_events].
    eexists (_ :: _ :: g ++ [_; _; _; _; _]), _, _.
    split.
    + cbn [app]. do 2 f_equal. rewrite <- app_assoc. reflexivity.
    + split; [reflexivity|]. split.
      * rewrite !count_cons, count_app.
        rewrite (gate_events_count is_exposure _ g eq_refl Hg). count_explicit.
      * rewrite !count_cons, count_app.
        rewrite (gate_events_count is_mount_motion _ g eq_refl Hg). count_explicit.
Qed.

Lemma capture_and_dither_counts_witness :
  count is_exposure
    (events_of (observatory_sequence "M42" "/images" "R" 3 10
                  (sample_world 45 (Some "OK") []))) = 3%nat
  /\ count is_dither_start
       (events_of (observatory_sequence "M42" "/images" "R" 3 10
                     (sample_world 45 (Some "OK") []))) = 2%nat.
Proof.
  destruct (capture_and_dither_counts "M42" "/images" "R" 3 10
              (sample_world 45 (Some "OK") []) M42 2)
    as (_ & Hexp & _ & Hdither & _);
    [reflexivity | reflexivity | reflexivity | lia | lia | lia |].
  split; [exact Hexp | exact Hdither].
Defined.

(** C1 as stated does not hold: with N = 2, a resolved target and a passed
    gate, a filter identifier outside the table makes the first capture raise
    (no exposure, no dither), and an exposure time below -2 seconds, or one
    of 10^10 seconds that [time.sleep] cannot take, makes it raise after its
    exposure command (one exposure, no dither). *)
Lemma capture_and_dither_counts_counterexample :
  resolver (sample_world 45 (Some "OK") []) "M42" = Some M42
  /\ passes_gate (sample_world 45 (Some "OK") []) 45
  /\ (1 <= 2)%Z
  /\ observatory_sequence "M42" "/images" "X" 2 10 (sample_world 45 (Some "OK") []) =
       (Raise (KeyError "X"),
        [ SimbadQuery "M42"; IndiGetProperty "iOptron IEQ Pro" "GEOGRAPHIC_COORD";
          MakeDirs "/images/M42_20240807_2230UT";
          HttpGet "http://localhost:4400/set_dec_guide_mode" [("mode", "multistar")];
          HttpGet "http://localhost:4400/guide" [] ],
        tick (sample_world 45 (Some "OK") []))
  /\ count is_exposure
       (events_of (observatory_sequence "M42" "/images" "X" 2 10
                     (sample_world 45 (Some "OK") []))) <> Z.to_nat 2
  /\ count is_dither_start
       (events_of (observatory_sequence "M42" "/images" "X" 2 10
                     (sample_world 45 (Some "OK") []))) <> Z.to_nat (2 - 1)
  /\ result_of (observatory_sequence "M42" "/images" "R" 2 (-5)
                  (sample_world 45 (Some "OK") [])) =
       Raise (ValueError "sleep length must be non-negative")
  /\ count is_exposure
       (events_of (observatory_sequence "M42" "/images" "R" 2 (-5)
                     (sample_world 45 (Some "OK") []))) <> Z.to_nat 2
  /\ result_of (observatory_sequence "M42" "/images" "R" 2 10000000000
                  (sample_world 45 (Some "OK") [])) = Raise OverflowError
  /\ count is_exposure
       (events_of (observatory_sequence "M42" "/images" "R" 2 10000000000
                     (sample_world 45 (Some "OK") []))) <> Z.to_nat 2
  /\ count is_dither_start
       (events_of (observatory_sequence "M42" "/images" "R" 2 10000000000
                     (sample_world 45 (Some "OK") []))) <> Z.to_nat (2 - 1).
Proof.
  repeat split; try (vm_compute; discriminate); try (vm_compute; reflexivity).
Qed.

(** *** Guiding around the captures *)

Lemma not_elem_of_count_zero (kind : Event -> bool) (e : Event) (l : list Event) :
  kind e = true -> count kind l = 0%nat -> e ∉ l.
Proof.
  intros He Hc Hin. apply count_zero_Forall in Hc.
  rewrite Forall_forall in Hc. specialize (Hc e Hin). congruence.
Qed.

(** A run that logs completion went through every phase, its loop having
    run to the end. *)
Lemma successful_inv (target base_directory filter_name : string)
    (exposure_count exposure_time : Z) (w : World) :
  successful (observatory_sequence target base_directory filter_name
                exposure_count exposure_time w) ->
  exists (coords : Coords) (g l : list Event) (w1 w2 : World),
    resolver w target = Some coords
    /\ check_continue_sequence (sky_altitude w coords) w = (Ok true, g, w1)
    /\ (g = [] \/ g = [Prompt (sky_altitude w coords)])
    /\ Forall (fun e => is_loop_event e = true) l
    /\ let directory :=
         base_directory +:+ "/" +:+ target +:+ "_" +:+ strftime (wall_clock w (ticks w)) in
       observatory_sequence target base_directory filter_name
         exposure_count exposure_time w =
       (Ok tt,
        [ SimbadQuery target; IndiGetProperty "iOptron IEQ Pro" "GEOGRAPHIC_COORD" ]
        ++ g
        ++ [ MakeDirs directory;
             HttpGet (PHD2_API_URL +:+ "/set_dec_guide_mode") [("mode", "multistar")];
             HttpGet (PHD2_API_URL +:+ "/guide") [] ]
        ++ l
        ++ [ HttpGet (PHD2_API_URL +:+ "/stop_capture") [];
             Log INFO (MsgSequenceComplete directory) ], w2).
Proof.
  intros [dir Hdone]. rewrite observatory_sequence_run in *.
  destruct (resolver w target) as [coords|].
  2:{ exfalso. revert Hdone.
      apply (not_elem_of_count_zero is_completion_log); reflexivity. }
  exists coords.
  destruct (check_continue_sequence (sky_altitude w coords) w) as [[r g] w1] eqn:E.
  pose proof (check_continue_sequence_inv _ _ _ _ _ E) as (Hg & _ & _ & _ & Hclock & Hticks).
  pose proof (gate_events_count is_completion_log _ g eq_refl Hg) as Hcg.
  cbv zeta in Hdone. cbv zeta.
  destruct r as [[|]|x].
  - pose proof (for_each_loop_events exposure_time filter_name
        (base_directory +:+ "/" +:+ target +:+ "_" +:+ strftime (wall_clock w1 (ticks w1)))
        (seq 0 (Z.to_nat exposure_count)) (tick w1)) as Hl.
    rewrite <- range_unfold in Hl.
    destruct (for_each _ _ (tick w1)) as [[[[]|x] l] w2];
      unfold events_of in Hl; cbn [fst snd] in Hl.
    + exists g, l, w1, w2. rewrite Hclock, Hticks. auto.
    + exfalso. revert Hdone. apply (not_elem_of_count_zero is_completion_log);
        [reflexivity|].
      unfold events_of. cbn [fst snd]. rewrite !count_app, Hcg.
      rewrite (loop_events_count_none is_completion_log l) by
        (try assumption; intros [] ?; try discriminate; try reflexivity;
         destruct level; try discriminate; destruct msg; try discriminate; reflexivity).
      reflexivity.
  - exfalso. revert Hdone. apply (not_elem_of_count_zero is_completion_log);
      [reflexivity|].
    unfold events_of. cbn [fst snd]. rewrite !count_app, Hcg. reflexivity.
  - exfalso. revert Hdone. apply (not_elem_of_count_zero is_completion_log);
      [reflexivity|].
    unfold events_of. cbn [fst snd]. rewrite !count_app, Hcg. reflexivity.
Qed.

Lemma count_zero_lookup (kind : Event -> bool) (l : list Event) (i : nat) (e : Event) :
  count kind l = 0%nat -> l !! i = Some e -> kind e = false.
Proof.
  intros Hc Hi. apply count_zero_Forall in Hc.
  exact (proj1 (Forall_lookup _ l) Hc i e Hi).
Qed.

(** In a trace [before ++ s :: during ++ t :: after] where the events of
    kind [P] all lie in [during] and those of kind [T] in [t :: after], every
    [P] comes after [s] and before every [T]. *)
Lemma bracket_order (P T : Event -> bool) (before during after : list Event)
    (s t : Event) :
  count P before = 0%nat -> P s = false -> P t = false -> count P after = 0%nat ->
  count T before = 0%nat -> T s = false -> count T during = 0%nat ->
  forall (j : nat) (e : Event),
    (before ++ s :: during ++ t :: after) !! j = Some e ->
    P e = true ->
    (length before < j)%nat
    /\ forall (k : nat) (e' : Event),
         (before ++ s :: during ++ t :: after) !! k = Some e' ->
         T e' = true -> (j < k)%nat.
Proof.
  intros HPb HPs HPt HPa HTb HTs HTd j e Hj HPe.
  assert (Hjd : (length before < j < length before + 1 + length during)%nat).
  { apply lookup_app_Some in Hj as [Hj | [Hge Hj]].
    - pose proof (count_zero_lookup _ _ _ _ HPb Hj). congruence.
    - destruct (j - length before)%nat as [|j'] eqn:Ej; simpl in Hj.
      + injection Hj as <-. congruence.
      + apply lookup_app_Some in Hj as [Hj | [Hge' Hj]].
        * apply lookup_lt_Some in Hj. lia.
        * destruct (j' - length during)%nat as [|j''] eqn:Ej'; simpl in Hj.
          -- injection Hj as <-. congruence.
          -- pose proof (count_zero_lookup _ _ _ _ HPa Hj). congruence. }
  split; [lia|].
  intros k e' Hk HTe.
  apply lookup_app_Some in Hk as [Hk | [Hge Hk]].
  - pose proof (count_zero_lookup _ _ _ _ HTb Hk). congruence.
  - destruct (k - length before)%nat as [|k'] eqn:Ek; simpl in Hk.
    + injection Hk as <-. congruence.
    + apply lookup_app_Some in Hk as [Hk | [Hge' Hk]].
      * pose proof (count_zero_lookup _ _ _ _ HTd Hk). congruence.
      * lia.
Qed.

(** C4: in every run of the sequence command that logs completion, the
    trace splits around one guide-start call and one guide-stop call: every
    command of a capture (filter wheel, exposure, save) lies between the two,
    so guiding is started before the first capture and stopped only after the
    last one. *)
Theorem guiding_brackets_captures (target base_directory filter_name : string)
    (exposure_count exposure_time : Z) (w : World) :
  let run := observatory_sequence target base_directory filter_name
               exposure_count exposure_time w in
  successful run ->
  result_of run = Ok tt
  /\ (exists (before during after : list Event),
        events_of run =
          before ++ HttpGet (PHD2_API_URL +:+ "/guide") [] :: during
          ++ HttpGet (PHD2_API_URL +:+ "/stop_capture") [] :: after
        /\ count is_capture_command before = 0%nat
        /\ count is_capture_command after = 0%nat
        /\ count is_guide_start (before ++ during ++ after) = 0%nat
        /\ count is_guide_stop (before ++ during ++ after) = 0%nat)
  /\ forall (j : nat) (e : Event),
       events_of run !! j = Some e -> is_capture_command e = true ->
       (exists (i : nat) (s : Event),
          (i < j)%nat /\ events_of run !! i = Some s /\ is_guide_start s = true)
       /\ forall (k : nat) (t : Event),
            events_of run !! k = Some t -> is_guide_stop t = true -> (j < k)%nat.
Proof.
  intros run Hdone. subst run.
  apply successful_inv in Hdone
    as (coords & g & l & w1 & w2 & _ & _ & Hg & Hl & Hrun).
  cbv zeta in Hrun. rewrite Hrun. clear Hrun.
  unfold result_of, events_of. cbn [fst snd].
  set (d := base_directory +:+ "/" +:+ target +:+ "_" +:+ strftime (wall_clock w (ticks w))).
  set (before := [ SimbadQuery target;
                   IndiGetProperty "iOptron IEQ Pro" "GEOGRAPHIC_COORD" ]
                 ++ g
                 ++ [ MakeDirs d;
                      HttpGet (PHD2_API_URL +:+ "/set_dec_guide_mode")
                        [("mode", "multistar")] ]).
  set (start := HttpGet (PHD2_API_URL +:+ "/guide") []).
  set (stop := HttpGet (PHD2_API_URL +:+ "/stop_capture") []).
  set (after := [Log INFO (MsgSequenceComplete d)]).
  assert (Hsplit :
    [ SimbadQuery target; IndiGetProperty "iOptron IEQ Pro" "GEOGRAPHIC_COORD" ]
    ++ g
    ++ [ MakeDirs d;
         HttpGet (PHD2_API_URL +:+ "/set_dec_guide_mode") [("mode", "multistar")];
         start ]
    ++ l ++ stop :: after
    = before ++ start :: l ++ stop :: after).
  { unfold before. cbn [app]. do 2 f_equal. rewrite <- app_assoc. reflexivity. }
  rewrite Hsplit. clear Hsplit.
  assert (Hb : forall kind, kind (Prompt (sky_altitude w coords)) = false ->
                 count kind before
                 = count kind [ SimbadQuery target;
                                IndiGetProperty "iOptron IEQ Pro" "GEOGRAPHIC_COORD";
                                MakeDirs d;
                                HttpGet (PHD2_API_URL +:+ "/set_dec_guide_mode")
                                  [("mode", "multistar")] ]).
  { intros kind Hk. unfold before. rewrite !count_app, !count_cons, !count_nil.
    rewrite (gate_events_count kind _ g Hk Hg). lia. }
  assert (HPb : count is_capture_command before = 0%nat)
    by (rewrite Hb; reflexivity).
  assert (HSb : count is_guide_start before = 0%nat)
    by (rewrite Hb; reflexivity).
  assert (HTb : count is_guide_stop before = 0%nat)
    by (rewrite Hb; reflexivity).
  assert (HSl : count is_guide_start l = 0%nat).
  { apply loop_events_count_none; [|exact Hl].
    intros [] ?; try discriminate; reflexivity. }
  assert (HTl : count is_guide_stop l = 0%nat).
  { apply loop_events_count_none; [|exact Hl].
    intros [] ?; try discriminate; reflexivity. }
  split; [reflexivity|]. split.
  - exists before, l, after. split; [reflexivity|].
    split; [exact HPb|]. split; [reflexivity|].
    rewrite !count_app, HSb, HSl, HTb, HTl. split; reflexivity.
  - intros j e Hj He.
    destruct (bracket_order is_capture_command is_guide_stop before l after start stop
                HPb eq_refl eq_refl eq_refl HTb eq_refl HTl j e Hj He) as [Hlt Hstop].
    split; [|exact Hstop].
    exists (length before), start. split; [exact Hlt|]. split; [|reflexivity].
    rewrite lookup_app_r by lia. rewrite Nat.sub_diag. reflexivity.
Qed.

Lemma guiding_brackets_captures_witness :
  result_of (observatory_sequence "M42" "/images" "R" 3 10
               (sample_world 45 (Some "OK") [])) = Ok tt.
Proof.
  apply (guiding_brackets_captures "M42" "/images" "R" 3 10
           (sample_world 45 (Some "OK") [])).
  exists "/images/M42_20240807_2230UT". vm_compute.
  repeat first [apply list_elem_of_here | apply list_elem_of_further].
Defined.

(** ** Frame file names *)

Lemma length_append (a b : string) :
  String.length (a +:+ b) = (String.length a + String.length b)%nat.
Proof. induction a as [|c a IH]; simpl; [reflexivity | rewrite IH; reflexivity]. Qed.

Lemma all_digits_append (a b : string) :
  Text.all_digits (a +:+ b) = Text.all_digits a && Text.all_digits b.
Proof.
  induction a as [|c a IH]; simpl; [reflexivity|].
  rewrite IH, andb_assoc. reflexivity.
Qed.

Lemma zeros_length (n : nat) : String.length (Text.zeros n) = n.
Proof. induction n as [|n IH]; simpl; [reflexivity | rewrite IH; reflexivity]. Qed.

Lemma zeros_digits (n : nat) : Text.all_digits (Text.zeros n) = true.
Proof. induction n as [|n IH]; simpl; [reflexivity | exact IH]. Qed.

Lemma zfill_length (width : nat) (s : string) :
  String.length (Text.zfill width s) = Nat.max width (String.length s).
Proof. unfold Text.zfill. rewrite length_append, zeros_length. lia. Qed.

Lemma zfill_digits (width : nat) (s : string) :
  Text.all_digits s = true -> Text.all_digits (Text.zfill width s) = true.
Proof.
  intros H. unfold Text.zfill. rewrite all_digits_append, zeros_digits, H. reflexivity.
Qed.

Lemma string_of_uint_digits (d : Decimal.uint) :
  Text.all_digits (NilEmpty.string_of_uint d) = true.
Proof. induction d; simpl; auto. Qed.

Lemma str_N_digits (n : N) : Text.all_digits (Text.str_N n) = true.
Proof.
  unfold Text.str_N, NilZero.string_of_uint.
  destruct (N.to_uint n); try apply string_of_uint_digits. reflexivity.
Qed.

Lemma N_to_uint_nonnil (n : N) : N.to_uint n <> Decimal.Nil.
Proof.
  destruct n as [|p]; [discriminate|]. apply DecimalPos.Unsigned.to_uint_nonnil.
Qed.

Lemma str_N_NilEmpty (n : N) :
  Text.str_N n = NilEmpty.string_of_uint (N.to_uint n).
Proof.
  unfold Text.str_N, NilZero.string_of_uint.
  pose proof (N_to_uint_nonnil n) as H.
  destruct (N.to_uint n); try reflexivity. congruence.
Qed.

Lemma uint_of_string_zeros (k : nat) (s : string) (d : Decimal.uint) :
  NilEmpty.uint_of_string s = Some d ->
  exists d', NilEmpty.uint_of_string (Text.zeros k +:+ s) = Some d'
             /\ N.of_uint d' = N.of_uint d.
Proof.
  intros H. induction k as [|k (d' & IH & Hd')]; simpl.
  - exists d. split; [exact H | reflexivity].
  - exists (Decimal.D0 d'). rewrite IH. split; [reflexivity | exact Hd'].
Qed.

(** Reading a zero-padded number back gives the number. *)
Lemma parse_zfill_str_N (width : nat) (n : N) :
  Text.parse_N (Text.zfill width (Text.str_N n)) = Some n.
Proof.
  unfold Text.parse_N, Text.zfill. rewrite str_N_NilEmpty.
  destruct (uint_of_string_zeros (width - String.length (NilEmpty.string_of_uint (N.to_uint n)))
              _ _ (NilEmpty.usu (N.to_uint n))) as (d' & Hparse & Hval).
  assert (Hz : NilZero.uint_of_string
                 (Text.zeros (width - String.length (NilEmpty.string_of_uint (N.to_uint n)))
                  +:+ NilEmpty.string_of_uint (N.to_uint n)) = Some d').
  { unfold NilZero.uint_of_string.
    destruct (Text.zeros _ +:+ _) eqn:E; [|exact Hparse].
    exfalso. apply (f_equal String.length) in E. rewrite length_append in E.
    pose proof (N_to_uint_nonnil n) as Hnn.
    destruct (N.to_uint n); simpl in E; try lia. congruence. }
  rewrite Hz. simpl. rewrite Hval, DecimalN.Unsigned.of_to. reflexivity.
Qed.

(** Numbers up to 9999 have at most four digits, numbers up to 99 at most
    two (checked on every one of them). *)
Lemma str_N_length_small (n : N) :
  ((n <= 9999)%N -> (String.length (Text.str_N n) <= 4)%nat)
  /\ ((n <= 99)%N -> (String.length (Text.str_N n) <= 2)%nat).
Proof.
  assert (H4 : forallb (fun i => String.length (Text.str_N (N.of_nat i)) <=? 4)%nat
                 (seq 0 (N.to_nat 10000)) = true) by (vm_compute; reflexivity).
  assert (H2 : forallb (fun i => String.length (Text.str_N (N.of_nat i)) <=? 2)%nat
                 (seq 0 (N.to_nat 100)) = true) by (vm_compute; reflexivity).
  rewrite forallb_forall in H4, H2. split; intros Hn.
  - specialize (H4 (N.to_nat n)). rewrite N2Nat.id in H4.
    apply Nat.leb_le, H4, in_seq. lia.
  - specialize (H2 (N.to_nat n)). rewrite N2Nat.id in H2.
    apply Nat.leb_le, H2, in_seq. lia.
Qed.

Lemma zfill_digits_4 (n : N) : (n <= 9999)%N -> digits 4 (Text.zfill 4 (Text.str_N n)).
Proof.
  intros H. split; [|apply zfill_digits, str_N_digits].
  rewrite zfill_length. pose proof (proj1 (str_N_length_small n) H). lia.
Qed.

Lemma zfill_digits_2 (n : N) : (n <= 99)%N -> digits 2 (Text.zfill 2 (Text.str_N n)).
Proof.
  intros H. split; [|apply zfill_digits, str_N_digits].
  rewrite zfill_length. pose proof (proj2 (str_N_length_small n) H). lia.
Qed.

Lemma strftime_pattern (t : DateTime) : valid_datetime t -> timestamp_pattern (strftime t).
Proof.
  intros (Hy & Hmo & Hd & Hh & Hmi).
  exists (Text.zfill 4 (Text.str_N (year t))), (Text.zfill 2 (Text.str_N (month t))),
         (Text.zfill 2 (Text.str_N (day t))), (Text.zfill 2 (Text.str_N (hour t))),
         (Text.zfill 2 (Text.str_N (minute t))).
  split; [reflexivity|].
  split; [apply zfill_digits_4; lia|].
  repeat split; try (apply zfill_digits_2; lia); apply zfill_digits, str_N_digits.
Qed.

Lemma format_04d_index (k : nat) :
  Text.format_04d (Z.of_nat k + 1) = Text.zfill 4 (Text.str_N (N.of_nat (S k)))
  /\ padded_index (S k) (Text.format_04d (Z.of_nat k + 1)).
Proof.
  assert (E : Text.format_04d (Z.of_nat k + 1) = Text.zfill 4 (Text.str_N (N.of_nat (S k)))).
  { unfold Text.format_04d.
    destruct (Z.of_nat k + 1)%Z as [|q|q] eqn:Ez; try lia.
    f_equal. f_equal. lia. }
  split; [exact E|]. rewrite E. split; [apply zfill_digits, str_N_digits|].
  split; [apply parse_zfill_str_N|]. rewrite zfill_length. split; [lia|].
  intros Hk. pose proof (proj1 (str_N_length_small (N.of_nat (S k)))). lia.
Qed.

Lemma saved_paths_app (l1 l2 : list Event) :
  saved_paths (l1 ++ l2) = saved_paths l1 ++ saved_paths l2.
Proof.
  induction l1 as [|e l1 IH]; [reflexivity|].
  simpl. destruct e; try exact IH. destruct (is_save _); simpl; rewrite IH; reflexivity.
Qed.

Lemma saved_paths_gate (altitude : Q) (g : list Event) :
  g = [] \/ g = [Prompt altitude] -> saved_paths g = [].
Proof. intros [-> | ->]; reflexivity. Qed.

(** The loop saves one frame per index: the [j]-th one is stamped with the
    [j]-th clock reading of the loop and numbered with its index plus one. *)
Lemma saved_paths_loop (clock : nat -> DateTime) (p e : Z) (f d : string)
    (indices : list nat) (t : nat) :
  saved_paths (loop_events clock t p e f d indices) =
  imap (fun j i => frame_filename d f (strftime (clock (t + j)%nat)) (Z.of_nat i + 1))
       indices.
Proof.
  revert t. induction indices as [|i rest IH]; intros t; [reflexivity|].
  cbn [loop_events imap]. rewrite saved_paths_app, IH. unfold step_events.
  rewrite saved_paths_app.
  replace (saved_paths (match i with O => [] | S _ => dither_events end)) with (@nil string)
    by (destruct i; reflexivity).
  cbn [app]. change (saved_paths (capture_events p e ?x)) with [x].
  rewrite Nat.add_0_r. cbn [app]. f_equal.
  apply imap_ext. intros j x _. unfold compose. do 3 f_equal. lia.
Qed.

(** What a run saves: nothing, or (when it resolves, passes the gate and can
    capture) one frame per loop index, in the directory it created. *)
Lemma observatory_sequence_saved_paths (target base_directory filter_name : string)
    (exposure_count exposure_time : Z) (w : World) :
  let run := observatory_sequence target base_directory filter_name
               exposure_count exposure_time w in
  let directory :=
    base_directory +:+ "/" +:+ target +:+ "_" +:+ strftime (wall_clock w (ticks w)) in
  saved_paths (events_of run) = []
  \/ (MakeDirs directory ∈ events_of run
      /\ saved_paths (events_of run) =
         imap (fun j i => frame_filename directory filter_name
                            (strftime (wall_clock w (S (ticks w) + j)%nat))
                            (Z.of_nat i + 1))
              (seq 0 (Z.to_nat exposure_count))).
Proof.
  intros run directory. subst run directory.
  rewrite observatory_sequence_run.
  destruct (resolver w target) as [coords|]; [|left; reflexivity].
  destruct (check_continue_sequence (sky_altitude w coords) w) as [[r g] w1] eqn:E.
  pose proof (check_continue_sequence_inv _ _ _ _ _ E) as (Hg & _ & _ & _ & Hclock & Hticks).
  pose proof (saved_paths_gate _ g Hg) as Hsg.
  cbv zeta. destruct r as [[|]|x].
  2,3: left; unfold events_of; cbn [fst snd]; rewrite !saved_paths_app, Hsg; reflexivity.
  rewrite Hclock, Hticks.
  set (d := base_directory +:+ "/" +:+ target +:+ "_" +:+ strftime (wall_clock w (ticks w))).
  destruct (for_each_range_run exposure_time filter_name d exposure_count (tick w1))
    as [(p & Hf & Ht & Hrun) | [(Hn & Hrun) | (Hn & _ & x & l & Hrun & Hsl & _)]];
    cbv zeta in Hrun; rewrite Hrun; unfold events_of; cbn [fst snd].
  - right. split.
    + do 2 apply list_elem_of_further. apply elem_of_app. right. apply list_elem_of_here.
    + rewrite !saved_paths_app, Hsg, saved_paths_loop.
      cbn [wall_clock ticks tick]. rewrite Hclock, Hticks.
      change (saved_paths [SimbadQuery _; _]) with (@nil string).
      change (saved_paths [MakeDirs _; _; _]) with (@nil string).
      change (saved_paths [HttpGet _ _; _]) with (@nil string).
      rewrite app_nil_r. reflexivity.
  - left. rewrite !saved_paths_app, Hsg. reflexivity.
  - left. rewrite !saved_paths_app, Hsg, Hsl. reflexivity.
Qed.

(** C6 (as amended): every frame file a sequence run saves is named
    [{filter}_{YYYYMMDD_HHMMUT}_{index}.fits] inside the directory the run
    created; the file saved at position [k] (counting from 0) carries the
    index [k + 1], written in decimal and zero-padded to four digits (exactly
    four digits up to index 9999, never fewer), so the indices start at 1
    and increase by one per capture;
    and a run of N >= 1 exposures that resolves, passes the gate, names a
    filter of the table and whose waits are non-negative and add up to at
    most 10^9 seconds saves exactly N files, so they end at N. *)
Theorem frame_filenames_follow_pattern (target base_directory filter_name : string)
    (exposure_count exposure_time : Z) (w : World) :
  (forall t, valid_datetime (wall_clock w t)) ->
  let run := observatory_sequence target base_directory filter_name
               exposure_count exposure_time w in
  (forall (k : nat) (path : string),
     saved_paths (events_of run) !! k = Some path ->
     (Z.of_nat (S k) <= exposure_count)%Z
     /\ exists directory,
          MakeDirs directory ∈ events_of run
          /\ frame_pattern padded_index directory filter_name (S k) path)
  /\ (forall (coords : Coords) (p : Z),
        resolver w target = Some coords ->
        passes_gate w (sky_altitude w coords) ->
        filters !! filter_name = Some p ->
        (0 <= exposure_time + 2)%Z ->
        (1 <= exposure_count)%Z ->
        (exposure_count * (exposure_time + 6) <= 1000000000)%Z ->
        length (saved_paths (events_of run)) = Z.to_nat exposure_count).
Proof.
  intros Hclock run. split.
  - intros k path Hk.
    destruct (observatory_sequence_saved_paths target base_directory filter_name
                exposure_count exposure_time w) as [Hnone | [Hdir Hsaved]];
      fold run in Hnone || fold run in Hdir, Hsaved.
    + rewrite Hnone in Hk. discriminate.
    + rewrite Hsaved in Hk. apply list_lookup_imap_Some in Hk as (i & Hi & ->).
      apply lookup_seq in Hi as [-> Hlt]. split; [lia|].
      eexists. split; [exact Hdir|].
      eexists _, _. split; [reflexivity|].
      split; [apply strftime_pattern, Hclock|].
      apply (format_04d_index k).
  - intros coords p Hres Hgate Hf Ht Hn Hfit.
    destruct (observatory_sequence_complete target base_directory filter_name
                exposure_count exposure_time w coords p Hres Hgate Hf
                (sleep_fault_fits _ _ Ht Hn Hfit))
      as (g & w1 & _ & Hg & Hrun).
    subst run. cbv zeta in Hrun. rewrite Hrun. unfold events_of. cbn [fst snd].
    rewrite !saved_paths_app, (saved_paths_gate _ g Hg), saved_paths_loop.
    cbn [saved_paths is_save app]. rewrite app_nil_r, length_imap, length_seq.
    reflexivity.
Qed.

Lemma sample_clock_valid (k : nat) : valid_datetime (sample_clock k).
Proof.
  unfold valid_datetime, sample_clock. cbv zeta.
  cbn [year month day hour minute].
  set (m := (22 * 60 + 30 + N.of_nat k)%N).
  clearbody m.
  pose proof (N.mod_upper_bound (m / 1440) 20 ltac:(discriminate)).
  pose proof (N.mod_upper_bound (m / 60) 24 ltac:(discriminate)).
  pose proof (N.mod_upper_bound m 60 ltac:(discriminate)).
  generalize dependent ((m / 1440) mod 20)%N.
  generalize dependent ((m / 60) mod 24)%N.
  generalize dependent (m mod 60)%N.
  intros. lia.
Qed.

Lemma frame_filenames_witness :
  length (saved_paths
            (events_of (observatory_sequence "M42" "/images" "R" 3 10
                          (sample_world 45 (Some "OK") [])))) = 3%nat.
Proof.
  apply (proj2 (frame_filenames_follow_pattern "M42" "/images" "R" 3 10
                  (sample_world 45 (Some "OK") []) sample_clock_valid) M42 2%Z);
    [reflexivity | reflexivity | reflexivity | lia | lia | lia].
Defined.

(** C6 as stated does not hold: the 10000th frame of a run of 10000
    exposures gets the index 10000, which takes five digits, so its name is
    not of the four-digit form. *)
Lemma four_digit_index_counterexample :
  saved_paths
    (events_of (observatory_sequence "M42" "/images" "R" 10000 10
                  (sample_world 45 (Some "OK") []))) !! N.to_nat 9999
  = Some "/images/M42_20240807_2230UT/R_20240814_2110UT_10000.fits"
  /\ ~ frame_pattern four_digit_index "/images/M42_20240807_2230UT" "R"
         (N.to_nat 10000)
         "/images/M42_20240807_2230UT/R_20240814_2110UT_10000.fits".
Proof.
  split; [vm_compute; reflexivity|].
  intros (ts & index & Hpath
          & (y & mo & d & h & mi & -> & [Hy _] & [Hmo _] & [Hd _] & [Hh _] & [Hmi _])
          & [[Hindex _] _]).
  apply (f_equal String.length) in Hpath. unfold frame_path in Hpath.
  rewrite !length_append, Hy, Hmo, Hd, Hh, Hmi, Hindex in Hpath.
  vm_compute in Hpath. discriminate.
Qed.

(** ** Dithering *)

Lemma sequence_step_dithers (exposure_time : Z) (filter_name directory : string)
    (i : Z) (w : World) :
  i <> 0%Z ->
  sequence_step exposure_time filter_name directory i w =
  match capture_image exposure_time filter_name directory (i + 1) w with
  | (r, t, w') => (r, dither_events ++ t, w')
  end.
Proof.
  intros Hi. unfold sequence_step. rewrite run_bind.
  replace (negb (i =? 0)%Z) with true by (symmetry; apply negb_true_iff, Z.eqb_neq, Hi).
  rewrite dither_run.
  destruct (capture_image _ _ _ _ w) as [[r t] w']. reflexivity.
Qed.

(** C8 (as amended): a dither move switches motion on (value 1) on the
    north-south axis of the mount, waits a fixed second, switches motion on
    (value 1) on the west-east axis, waits a fixed second, and switches both
    axes off (value 0).  Its two pulses carry the same value.  In the capture
    loop, for every loop index but the first, the whole move comes
    immediately before the capture of that index. *)
Theorem dither_move_shape :
  (forall w : World,
     dither w =
     (Ok tt,
      [ IndiNumber "iOptron IEQ Pro" "TELESCOPE_MOTION_NS" "TELESCOPE_MOTION_NS_VALUE" 1;
        Sleep 1;
        IndiNumber "iOptron IEQ Pro" "TELESCOPE_MOTION_WE" "TELESCOPE_MOTION_WE_VALUE" 1;
        Sleep 1;
        IndiNumber "iOptron IEQ Pro" "TELESCOPE_MOTION_NS" "TELESCOPE_MOTION_NS_VALUE" 0;
        IndiNumber "iOptron IEQ Pro" "TELESCOPE_MOTION_WE" "TELESCOPE_MOTION_WE_VALUE" 0 ],
      w))
  /\ (forall w : World,
        motion_pulses (events_of (dither w)) =
        [ ("TELESCOPE_MOTION_NS", 1%Z); ("TELESCOPE_MOTION_WE", 1%Z) ])
  /\ (forall (exposure_time : Z) (filter_name directory : string) (i : Z) (w : World),
        i <> 0%Z ->
        events_of (sequence_step exposure_time filter_name directory i w) =
        events_of (dither w)
        ++ events_of (capture_image exposure_time filter_name directory (i + 1) w)).
Proof.
  split; [reflexivity|]. split; [reflexivity|].
  intros exposure_time filter_name directory i w Hi.
  rewrite sequence_step_dithers by exact Hi. rewrite dither_run.
  destruct (capture_image _ _ _ _ w) as [[r t] w']. reflexivity.
Qed.

Lemma dither_move_witness :
  events_of (sequence_step 10 "R" "/images/M42_20240807_2230UT" 1
               (sample_world 45 (Some "OK") [])) =
  events_of (dither (sample_world 45 (Some "OK") []))
  ++ events_of (capture_image 10 "R" "/images/M42_20240807_2230UT" (1 + 1)
                  (sample_world 45 (Some "OK") [])).
Proof.
  apply (proj2 (proj2 dither_move_shape)). discriminate.
Defined.

(** C8 as stated does not hold: the two pulses of a dither move are sent
    with the same value 1 to both axes, not with opposite signs. *)
Lemma opposite_pulses_counterexample :
  motion_pulses (events_of (dither (sample_world 45 (Some "OK") []))) =
    [ ("TELESCOPE_MOTION_NS", 1%Z); ("TELESCOPE_MOTION_WE", 1%Z) ]
  /\ ~ opposite_direction_pulses (events_of (dither (sample_world 45 (Some "OK") []))).
Proof.
  split; [reflexivity|].
  intros (v_ns & v_we & Hns & Hwe & Hsign).
  change (motion_pulses _) with
    [ ("TELESCOPE_MOTION_NS", 1%Z); ("TELESCOPE_MOTION_WE", 1%Z) ] in Hns, Hwe.
  assert (v_ns = 1%Z).
  { repeat (apply elem_of_cons in Hns as [Hns | Hns]; [congruence|]).
    apply elem_of_nil in Hns. contradiction. }
  assert (v_we = 1%Z).
  { repeat (apply elem_of_cons in Hwe as [Hwe | Hwe]; [congruence|]).
    apply elem_of_nil in Hwe. contradiction. }
  lia.
Qed.

(** ** Guiding results *)

Lemma check_continue_sequence_guider (altitude : Q) (w : World)
    (answers : string -> option string) :
  check_continue_sequence altitude (set_guider w answers) =
  match check_continue_sequence altitude w with
  | (r, t, w') => (r, t, set_guider w' answers)
  end.
Proof.
  rewrite !check_continue_sequence_run.
  destruct (Qlt_bool altitude 20); [|reflexivity].
  cbn [stdin set_guider]. destruct (stdin w); reflexivity.
Qed.

Lemma for_each_guider (exposure_time : Z) (filter_name directory : string)
    (answers : string -> option string) (indices : list nat) (w : World) :
  for_each (map Z.of_nat indices)
    (sequence_step exposure_time filter_name directory) (set_guider w answers) =
  match for_each (map Z.of_nat indices)
          (sequence_step exposure_time filter_name directory) w with
  | (r, t, w') => (r, t, set_guider w' answers)
  end.
Proof.
  revert w. induction indices as [|i rest IH]; intros w; [reflexivity|].
  simpl for_each. rewrite !run_bind, !sequence_step_run, !capture_image_run.
  destruct (filters !! filter_name) as [p|]; [|reflexivity].
  destruct (sleep_fault (exposure_time + 2)); [reflexivity|].
  change (tick (set_guider w answers)) with (set_guider (tick w) answers).
  rewrite IH. cbn [wall_clock ticks set_guider].
  destruct (for_each _ _ (tick w)) as [[r t] w']. reflexivity.
Qed.

(** The whole run of the sequence command is the same whatever the guiding
    daemon answers. *)
Lemma observatory_sequence_guider (target base_directory filter_name : string)
    (exposure_count exposure_time : Z) (w : World) (answers : string -> option string) :
  observatory_sequence target base_directory filter_name exposure_count exposure_time
    (set_guider w answers) =
  match observatory_sequence target base_directory filter_name
          exposure_count exposure_time w with
  | (r, t, w') => (r, t, set_guider w' answers)
  end.
Proof.
  rewrite !observatory_sequence_run. cbn [resolver sky_altitude set_guider].
  destruct (resolver w target) as [coords|]; [|reflexivity].
  rewrite check_continue_sequence_guider.
  destruct (check_continue_sequence (sky_altitude w coords) w) as [[[[|]|x] g] w1];
    try reflexivity.
  cbv zeta. cbn [wall_clock ticks set_guider].
  change (tick (set_guider w1 answers)) with (set_guider (tick w1) answers).
  rewrite range_unfold, for_each_guider.
  destruct (for_each _ _ (tick w1)) as [[[[]|x] l] w2]; reflexivity.
Qed.

(** C5 (what the code does): the guide-mode and guide-start calls report
    success exactly when the status token is "OK", but the sequence command
    drops both results.  When the daemon answers "ERROR" to every call, both
    calls return False and the run still commands its exposures, saves its
    frames and logs completion; in general the run's result and trace do not
    depend on the daemon's answers at all. *)
Theorem guiding_failure_is_ignored :
  (forall w : World,
     enable_multi_star_guiding w =
     (Ok (bool_decide (guider w (PHD2_API_URL +:+ "/set_dec_guide_mode") = Some "OK")),
      [HttpGet (PHD2_API_URL +:+ "/set_dec_guide_mode") [("mode", "multistar")]], w))
  /\ (forall w : World,
        start_guiding w =
        (Ok (bool_decide (guider w (PHD2_API_URL +:+ "/guide") = Some "OK")),
         [HttpGet (PHD2_API_URL +:+ "/guide") []], w))
  /\ result_of (enable_multi_star_guiding (sample_world 45 (Some "ERROR") [])) = Ok false
  /\ result_of (start_guiding (sample_world 45 (Some "ERROR") [])) = Ok false
  /\ result_of (observatory_sequence "M42" "/images" "R" 2 10
                  (sample_world 45 (Some "ERROR") [])) = Ok tt
  /\ events_of (observatory_sequence "M42" "/images" "R" 2 10
                  (sample_world 45 (Some "ERROR") [])) =
     events_of (observatory_sequence "M42" "/images" "R" 2 10
                  (sample_world 45 (Some "OK") []))
  /\ count is_exposure
       (events_of (observatory_sequence "M42" "/images" "R" 2 10
                     (sample_world 45 (Some "ERROR") []))) = 2%nat
  /\ forall (target base_directory filter_name : string)
            (exposure_count exposure_time : Z) (w : World)
            (answers : string -> option string),
       result_of (observatory_sequence target base_directory filter_name
                    exposure_count exposure_time (set_guider w answers)) =
       result_of (observatory_sequence target base_directory filter_name
                    exposure_count exposure_time w)
       /\ events_of (observatory_sequence target base_directory filter_name
                       exposure_count exposure_time (set_guider w answers)) =
          events_of (observatory_sequence target base_directory filter_name
                       exposure_count exposure_time w).
Proof.
  split; [reflexivity|]. split; [reflexivity|].
  do 5 (split; [vm_compute; reflexivity|]).
  intros. rewrite observatory_sequence_guider.
  destruct (observatory_sequence _ _ _ _ _ w) as [[r t] w']. split; reflexivity.
Qed.

(** * Further properties of the module *)

(** ** The target command *)

(** X1: a target command that resolves its target and passes the gate sends
    the mount exactly one slew command, carrying the resolved right ascension
    and declination, waits ten seconds and logs the arrival. *)
Theorem target_slews_once (target_name : string) (w : World) (coords : Coords) :
  resolver w target_name = Some coords ->
  passes_gate w (sky_altitude w coords) ->
  let run := observatory_target target_name w in
  result_of run = Ok tt
  /\ events_of run =
       [ SimbadQuery target_name; IndiGetProperty "iOptron IEQ Pro" "GEOGRAPHIC_COORD" ]
       ++ events_of (check_continue_sequence (sky_altitude w coords) w)
       ++ [ IndiCoord "iOptron IEQ Pro" "EQUATORIAL_EOD_COORD" (ra coords) (dec coords);
            Sleep 10; Log INFO (MsgSlewed coords) ]
  /\ count is_slew (events_of run) = 1%nat.
Proof.
  intros Hres Hgate run. subst run.
  rewrite observatory_target_run, Hres. unfold passes_gate in Hgate.
  destruct (check_continue_sequence (sky_altitude w coords) w) as [[r g] w1] eqn:E.
  unfold result_of in Hgate. simpl in Hgate. subst r.
  apply check_continue_sequence_inv in E as (Hg & _).
  unfold result_of, events_of. cbn [fst snd].
  split; [reflexivity|]. split; [reflexivity|].
  rewrite !count_app, (gate_events_count is_slew _ g eq_refl Hg). reflexivity.
Qed.

Lemma target_slews_once_witness :
  events_of (observatory_target "M42" (sample_world 45 (Some "OK") [])) =
  [ SimbadQuery "M42"; IndiGetProperty "iOptron IEQ Pro" "GEOGRAPHIC_COORD";
    IndiCoord "iOptron IEQ Pro" "EQUATORIAL_EOD_COORD" (ra M42) (dec M42);
    Sleep 10; Log INFO (MsgSlewed M42) ].
Proof.
  destruct (target_slews_once "M42" (sample_world 45 (Some "OK") []) M42)
    as (_ & Hev & _); [reflexivity | reflexivity |].
  rewrite Hev. reflexivity.
Defined.

(** X2: when the resolver does not know the target, the target command only
    asks the resolver and writes two error records: the mount is neither read
    nor moved, and the operator is not asked anything. *)
Theorem target_unresolved_only_logs_error (target_name : string) (w : World) :
  resolver w target_name = None ->
  observatory_target target_name w =
  (Ok tt,
   [ SimbadQuery target_name; Log ERROR (MsgObjectNotFound target_name);
     Log ERROR MsgTargetNotFound ], w).
Proof.
  intros H. rewrite observatory_target_run, H. reflexivity.
Qed.

Lemma target_unresolved_witness :
  observatory_target "Ghost" (sample_world 45 (Some "OK") ["y"]) =
  (Ok tt,
   [ SimbadQuery "Ghost"; Log ERROR (MsgObjectNotFound "Ghost");
     Log ERROR MsgTargetNotFound ], sample_world 45 (Some "OK") ["y"]).
Proof.
  apply (target_unresolved_only_logs_error "Ghost" (sample_world 45 (Some "OK") ["y"])).
  reflexivity.
Defined.

(** X3: whatever the target, the resolver, the altitude and the operator's
    answer, the target command sends nothing to the filter wheel or the
    camera, never calls the guiding daemon and creates no directory. *)
Theorem target_never_images (target_name : string) (w : World) :
  count is_capture_command (events_of (observatory_target target_name w)) = 0%nat
  /\ count is_guider_call (events_of (observatory_target target_name w)) = 0%nat
  /\ count is_makedirs (events_of (observatory_target target_name w)) = 0%nat
  /\ count is_mount_motion (events_of (observatory_target target_name w)) = 0%nat.
Proof.
  rewrite observatory_target_run.
  destruct (resolver w target_name) as [coords|]; [|repeat split; reflexivity].
  destruct (check_continue_sequence (sky_altitude w coords) w) as [[r g] w1] eqn:E.
  apply check_continue_sequence_inv in E as (Hg & _).
  cbv zeta.
  destruct r as [[|]|x]; unfold events_of; cbn [fst snd]; rewrite !count_app;
    rewrite (gate_events_count is_capture_command _ g eq_refl Hg),
            (gate_events_count is_guider_call _ g eq_refl Hg),
            (gate_events_count is_makedirs _ g eq_refl Hg),
            (gate_events_count is_mount_motion _ g eq_refl Hg);
    repeat split; reflexivity.
Qed.

(** ** Edge cases of the sequence command *)

(** X4: when the gate has to ask (altitude below 20 degrees) and no line can
    be read from the operator, [input] raises [EOFError]: both commands end
    with that exception right after the prompt, having moved nothing and
    created nothing. *)
Theorem end_of_input_at_the_prompt (target : string) (w : World) (coords : Coords) :
  resolver w target = Some coords ->
  (sky_altitude w coords < 20)%Q ->
  stdin w = [] ->
  observatory_target target w =
    (Raise EOFError,
     [ SimbadQuery target; IndiGetProperty "iOptron IEQ Pro" "GEOGRAPHIC_COORD";
       Prompt (sky_altitude w coords) ], w)
  /\ forall (base_directory filter_name : string) (exposure_count exposure_time : Z),
       observatory_sequence target base_directory filter_name
         exposure_count exposure_time w =
       (Raise EOFError,
        [ SimbadQuery target; IndiGetProperty "iOptron IEQ Pro" "GEOGRAPHIC_COORD";
          Prompt (sky_altitude w coords) ], w).
Proof.
  intros Hres Hlow Hin.
  assert (Hgate : check_continue_sequence (sky_altitude w coords) w =
                  (Raise EOFError, [Prompt (sky_altitude w coords)], w)).
  { rewrite check_continue_sequence_run. apply Qlt_bool_iff in Hlow.
    rewrite Hlow, Hin. reflexivity. }
  split.
  - rewrite observatory_target_run, Hres, Hgate. reflexivity.
  - intros. rewrite observatory_sequence_run, Hres, Hgate. reflexivity.
Qed.

Lemma end_of_input_witness :
  observatory_target "M42" (sample_world 15 (Some "OK") []) =
  (Raise EOFError,
   [ SimbadQuery "M42"; IndiGetProperty "iOptron IEQ Pro" "GEOGRAPHIC_COORD";
     Prompt 15 ], sample_world 15 (Some "OK") []).
Proof.
  apply (end_of_input_at_the_prompt "M42" (sample_world 15 (Some "OK") []) M42);
    reflexivity.
Defined.

Lemma range_nonpositive (n : Z) : (n <= 0)%Z -> range n = [].
Proof.
  intros H. unfold range. replace (Z.to_nat n) with 0%nat by lia. reflexivity.
Qed.

(** X5: a negative exposure count is not an error: [range] of a negative
    number is empty, so the run is, action for action, the run with an
    exposure count of zero. *)
Theorem negative_count_runs_as_zero (target base_directory filter_name : string)
    (exposure_count exposure_time : Z) (w : World) :
  (exposure_count <= 0)%Z ->
  observatory_sequence target base_directory filter_name exposure_count exposure_time w =
  observatory_sequence target base_directory filter_name 0 exposure_time w.
Proof.
  intros H. unfold observatory_sequence.
  rewrite (range_nonpositive exposure_count H), (range_nonpositive 0) by lia.
  reflexivity.
Qed.

Lemma negative_count_witness :
  observatory_sequence "M42" "/images" "R" (-3) 10 (sample_world 45 (Some "OK") []) =
  observatory_sequence "M42" "/images" "R" 0 10 (sample_world 45 (Some "OK") []).
Proof.
  apply (negative_count_runs_as_zero "M42" "/images" "R" (-3) 10). lia.
Defined.

(** X6: the sequence command never slews: whatever its arguments and the
    world, its trace holds no slew command, so the frames are taken wherever
    the mount already points. *)
Theorem sequence_never_slews (target base_directory filter_name : string)
    (exposure_count exposure_time : Z) (w : World) :
  count is_slew
    (events_of (observatory_sequence target base_directory filter_name
                  exposure_count exposure_time w)) = 0%nat.
Proof.
  rewrite observatory_sequence_run.
  destruct (resolver w target) as [coords|]; [|reflexivity].
  destruct (check_continue_sequence (sky_altitude w coords) w) as [[r g] w1] eqn:E.
  apply check_continue_sequence_inv in E as (Hg & _).
  pose proof (gate_events_count is_slew _ g eq_refl Hg) as Hcg.
  cbv zeta. destruct r as [[|]|x].
  - pose proof (for_each_loop_events exposure_time filter_name
        (base_directory +:+ "/" +:+ target +:+ "_" +:+ strftime (wall_clock w1 (ticks w1)))
        (seq 0 (Z.to_nat exposure_count)) (tick w1)) as Hl.
    rewrite <- range_unfold in Hl.
    destruct (for_each _ _ (tick w1)) as [[r l] w2].
    unfold events_of in Hl. cbn [fst snd] in Hl.
    assert (Hcl : count is_slew l = 0%nat).
    { apply loop_events_count_none; [|exact Hl].
      intros [] ?; try discriminate; reflexivity. }
    destruct r as [[]|x]; unfold events_of; cbn [fst snd];
      rewrite !count_app, Hcg, Hcl; reflexivity.
  - unfold events_of. cbn [fst snd]. rewrite !count_app, Hcg. reflexivity.
  - unfold events_of. cbn [fst snd]. rewrite !count_app, Hcg. reflexivity.
Qed.

(** X7: a capture that raises ends the run on the spot.  With at least one
    exposure asked for, a resolved target and a passed gate, an unknown
    filter ([KeyError]) or a camera wait that [time.sleep] does not take (an
    exposure time below -2 seconds: [ValueError], or [OverflowError] beyond
    the 64-bit range of nanoseconds; one above 9223372034 seconds:
    [OverflowError]) stops the run after the directory was created and
    guiding was started: the guide-stop call is never made, nothing is saved
    and completion is not logged. *)
Theorem failed_capture_leaves_guiding_running
    (target base_directory filter_name : string)
    (exposure_count exposure_time : Z) (w : World) (coords : Coords) :
  resolver w target = Some coords ->
  passes_gate w (sky_altitude w coords) ->
  (1 <= exposure_count)%Z ->
  filters !! filter_name = None
  \/ (exposure_time + 2 < 0)%Z \/ (9223372036 < exposure_time + 2)%Z ->
  let run := observatory_sequence target base_directory filter_name
               exposure_count exposure_time w in
  (result_of run = Raise (KeyError filter_name)
   \/ result_of run = Raise (ValueError "sleep length must be non-negative")
   \/ result_of run = Raise OverflowError)
  /\ count is_makedirs (events_of run) = 1%nat
  /\ count is_guide_start (events_of run) = 1%nat
  /\ count is_guide_stop (events_of run) = 0%nat
  /\ count is_completion_log (events_of run) = 0%nat
  /\ saved_paths (events_of run) = [].
Proof.
  intros Hres Hgate Hn Hbad run. subst run.
  rewrite observatory_sequence_run, Hres. unfold passes_gate in Hgate.
  destruct (check_continue_sequence (sky_altitude w coords) w) as [[r g] w1] eqn:E.
  unfold result_of in Hgate. simpl in Hgate. subst r.
  apply check_continue_sequence_inv in E as (Hg & _).
  cbv zeta. rewrite range_unfold.
  destruct (Z.to_nat exposure_count) as [|k] eqn:Hk; [lia|].
  assert (Hbad' : exists x, (filters !! filter_name = None
                             \/ sleep_fault (exposure_time + 2) = Some x)
                            /\ (x = ValueError "sleep length must be non-negative"
                                \/ x = OverflowError)).
  { destruct Hbad as [H | H]; [exists OverflowError; auto|].
    destruct (sleep_fault_Some _ H) as (x & Hx & Hkind). exists x. auto. }
  destruct Hbad' as (x & Hbad' & Hkind).
  cbn [seq]. rewrite (for_each_run_raise _ _ _ _ _ x Hbad').
  destruct (filters !! filter_name) as [p|]; unfold result_of, events_of; cbn [fst snd];
    rewrite !saved_paths_app, (saved_paths_gate _ g Hg), !count_app,
      (gate_events_count is_makedirs _ g eq_refl Hg),
      (gate_events_count is_guide_start _ g eq_refl Hg),
      (gate_events_count is_guide_stop _ g eq_refl Hg),
      (gate_events_count is_completion_log _ g eq_refl Hg);
    (split; [destruct Hkind as [-> | ->]; auto|]); repeat split; reflexivity.
Qed.

Lemma failed_capture_witness :
  count is_guide_stop
    (events_of (observatory_sequence "M42" "/images" "X" 3 10
                  (sample_world 45 (Some "OK") []))) = 0%nat.
Proof.
  apply (failed_capture_leaves_guiding_running "M42" "/images" "X" 3 10
           (sample_world 45 (Some "OK") []) M42);
    [reflexivity | reflexivity | lia | left; reflexivity].
Defined.

(** *** Time spent waiting *)

Lemma total_sleep_app (l1 l2 : list Event) :
  total_sleep (l1 ++ l2) = (total_sleep l1 + total_sleep l2)%Z.
Proof.
  induction l1 as [|e l1 IH]; [reflexivity|].
  destruct e; simpl; rewrite IH; lia.
Qed.

Lemma total_sleep_gate (altitude : Q) (g : list Event) :
  g = [] \/ g = [Prompt altitude] -> total_sleep g = 0%Z.
Proof. intros [-> | ->]; reflexivity. Qed.

Lemma total_sleep_loop (clock : nat -> DateTime) (p e : Z) (f d : string)
    (a n t : nat) :
  total_sleep (loop_events clock t p e f d (seq (S a) n)) = (Z.of_nat n * (e + 6))%Z.
Proof.
  revert a t. induction n as [|n IH]; intros a t; [reflexivity|].
  cbn [seq loop_events]. rewrite total_sleep_app, IH. unfold step_events.
  rewrite total_sleep_app. simpl total_sleep. lia.
Qed.

(** X8: a run of N >= 1 exposures that resolves, passes the gate, names a
    filter of the table and whose waits are non-negative and add up to at
    most 10^9 seconds spends exactly N * (exposure_time + 4) + 2 * (N - 1)
    seconds in [time.sleep]: two seconds for the filter wheel and
    exposure_time + 2 for the camera per frame, and two seconds per dither
    move. *)
Theorem sequence_waiting_time (target base_directory filter_name : string)
    (exposure_count exposure_time : Z) (w : World) (coords : Coords) (p : Z) :
  resolver w target = Some coords ->
  passes_gate w (sky_altitude w coords) ->
  filters !! filter_name = Some p ->
  (0 <= exposure_time + 2)%Z ->
  (1 <= exposure_count)%Z ->
  (exposure_count * (exposure_time + 6) <= 1000000000)%Z ->
  total_sleep
    (events_of (observatory_sequence target base_directory filter_name
                  exposure_count exposure_time w)) =
  (exposure_count * (exposure_time + 4) + 2 * (exposure_count - 1))%Z.
Proof.
  intros Hres Hgate Hf Ht Hn Hfit.
  destruct (observatory_sequence_complete target base_directory filter_name
              exposure_count exposure_time w coords p Hres Hgate Hf
              (sleep_fault_fits _ _ Ht Hn Hfit))
    as (g & w1 & _ & Hg & Hrun).
  cbv zeta in Hrun. rewrite Hrun. clear Hrun. unfold events_of. cbn [fst snd].
  destruct (Z.to_nat exposure_count) as [|k] eqn:Hk; [lia|].
  cbn [seq loop_events].
  rewrite !total_sleep_app, (total_sleep_gate _ g Hg), total_sleep_loop.
  unfold step_events. simpl total_sleep. lia.
Qed.

Lemma sequence_waiting_time_witness :
  total_sleep
    (events_of (observatory_sequence "M42" "/images" "R" 3 10
                  (sample_world 45 (Some "OK") []))) = 46%Z.
Proof.
  apply (sequence_waiting_time "M42" "/images" "R" 3 10
           (sample_world 45 (Some "OK") []) M42 2);
    [reflexivity | reflexivity | reflexivity | lia | lia | lia].
Defined.

(** *** Frame names do not collide *)

Lemma append_split (a b x y : string) :
  String.length a = String.length b -> a +:+ x = b +:+ y -> a = b /\ x = y.
Proof.
  revert b. induction a as [|c a IH]; intros [|c' b] Hlen Heq; simpl in *;
    try discriminate.
  - split; [reflexivity | exact Heq].
  - injection Heq as -> Heq. injection Hlen as Hlen.
    destruct (IH b Hlen Heq) as [-> ->]. split; reflexivity.
Qed.

Lemma append_inj_l (p x y : string) : p +:+ x = p +:+ y -> x = y.
Proof. intros H. exact (proj2 (append_split p p x y eq_refl H)). Qed.

Lemma append_inj_r (x y s : string) : x +:+ s = y +:+ s -> x = y.
Proof.
  intros H. refine (proj1 (append_split x y s s _ H)).
  apply (f_equal String.length) in H. rewrite !length_append in H. lia.
Qed.

Lemma timestamp_pattern_length (ts : string) :
  timestamp_pattern ts -> String.length ts = 15%nat.
Proof.
  intros (y & mo & d & h & mi & -> & [Hy _] & [Hmo _] & [Hd _] & [Hh _] & [Hmi _]).
  rewrite !length_append, Hy, Hmo, Hd, Hh, Hmi. reflexivity.
Qed.

(** Two frame paths of one directory and filter whose timestamps have the
    same length agree only if they agree on timestamp and index. *)
Lemma frame_path_inj (d f ts ts' index index' : string) :
  String.length ts = String.length ts' ->
  frame_path d f ts index = frame_path d f ts' index' ->
  ts = ts' /\ index = index'.
Proof.
  intros Hlen H. unfold frame_path in H.
  do 4 apply append_inj_l in H.
  apply (append_split _ _ _ _ Hlen) in H as [-> H]. split; [reflexivity|].
  apply append_inj_l in H. apply append_inj_r in H. exact H.
Qed.

(** X9: no two frames saved by one run of the sequence command have the
    same file name (the clock showing valid dates): the index alone tells
    them apart, so a run never overwrites a frame of its own. *)
Theorem frame_names_are_distinct (target base_directory filter_name : string)
    (exposure_count exposure_time : Z) (w : World) :
  (forall t, valid_datetime (wall_clock w t)) ->
  NoDup (saved_paths
           (events_of (observatory_sequence target base_directory filter_name
                         exposure_count exposure_time w))).
Proof.
  intros Hclock.
  destruct (observatory_sequence_saved_paths target base_directory filter_name
              exposure_count exposure_time w) as [Hnone | [_ Hsaved]];
    cbv zeta in *.
  - rewrite Hnone. constructor.
  - rewrite Hsaved. apply NoDup_alt. intros i j path Hi Hj.
    apply list_lookup_imap_Some in Hi as (i' & Hi & ->).
    apply list_lookup_imap_Some in Hj as (j' & Hj & Heq).
    apply lookup_seq in Hi as [-> _]. apply lookup_seq in Hj as [-> _].
    unfold frame_filename in Heq.
    apply frame_path_inj in Heq as [_ Heq].
    2:{ rewrite !timestamp_pattern_length by apply strftime_pattern, Hclock.
        reflexivity. }
    pose proof (proj2 (format_04d_index i)) as (_ & Hpi & _).
    pose proof (proj2 (format_04d_index j)) as (_ & Hpj & _).
    cbn [Nat.add] in Heq. rewrite Heq, Hpj in Hpi. injection Hpi as Hpi. lia.
Qed.

Lemma frame_names_witness :
  NoDup (saved_paths
           (events_of (observatory_sequence "M42" "/images" "R" 3 10
                         (sample_world 45 (Some "OK") [])))).
Proof.
  apply (frame_names_are_distinct "M42" "/images" "R" 3 10
           (sample_world 45 (Some "OK") [])).
  exact sample_clock_valid.
Defined.

(** *** What the devices are told *)

Lemma filters_positions (filter_name : string) (p : Z) :
  filters !! filter_name = Some p -> (1 <= p <= 6)%Z.
Proof.
  intros H. unfold filters in H. apply elem_of_list_to_map_2 in H.
  repeat (apply elem_of_cons in H as [[= _ ->] | H]; [lia|]).
  apply elem_of_nil in H. contradiction.
Qed.

Lemma for_each_Forall (P : Event -> Prop) (exposure_time : Z)
    (filter_name directory : string) :
  (forall c w, Forall P (events_of (capture_image exposure_time filter_name directory c w))) ->
  Forall P dither_events ->
  forall (indices : list nat) (w : World),
    Forall P (events_of (for_each (map Z.of_nat indices)
                           (sequence_step exposure_time filter_name directory) w)).
Proof.
  intros Hcap Hdither indices. induction indices as [|i rest IH]; intros w.
  - constructor.
  - simpl for_each. rewrite run_bind, sequence_step_run.
    pose proof (Hcap (Z.of_nat i + 1)%Z w) as Hc.
    destruct (capture_image _ _ _ _ w) as [[r t] w1].
    unfold events_of in Hc. simpl in Hc.
    assert (Hd : Forall P (match i with O => [] | S _ => dither_events end ++ t)).
    { apply Forall_app. split; [|exact Hc]. destruct i; [constructor | exact Hdither]. }
    destruct r as [[]|x]; [|exact Hd].
    specialize (IH w1).
    destruct (for_each _ _ w1) as [[r2 t2] w2].
    unfold events_of in *. simpl in *. apply Forall_app. split; assumption.
Qed.

Lemma capture_image_as_planned (exposure_time : Z) (filter_name directory : string)
    (c : Z) (w : World) :
  Forall (commanded_as_planned filter_name exposure_time)
         (events_of (capture_image exposure_time filter_name directory c w)).
Proof.
  rewrite capture_image_run.
  destruct (filters !! filter_name) as [p|] eqn:Hf; [|constructor].
  pose proof (filters_positions _ _ Hf) as Hp.
  destruct (sleep_fault _); unfold events_of; cbn [fst snd capture_events];
    repeat (apply Forall_cons; split); try apply Forall_nil; try exact I;
    (split; [intros H; try discriminate H; auto | intros H; try discriminate H; auto]).
Qed.

(** X10: in every run of the sequence command, each command to the filter
    wheel carries the position the table gives for the requested filter (a
    position between 1 and 6), and each exposure command carries the
    requested exposure time. *)
Theorem sequence_commands_as_planned (target base_directory filter_name : string)
    (exposure_count exposure_time : Z) (w : World)
    (device property element : string) (value : Z) :
  IndiNumber device property element value
    ∈ events_of (observatory_sequence target base_directory filter_name
                   exposure_count exposure_time w) ->
  (is_filter_slot (IndiNumber device property element value) = true ->
     filters !! filter_name = Some value /\ (1 <= value <= 6)%Z)
  /\ (is_exposure (IndiNumber device property element value) = true ->
        value = exposure_time).
Proof.
  intros Hin.
  assert (Hall : Forall (commanded_as_planned filter_name exposure_time)
                   (events_of (observatory_sequence target base_directory filter_name
                                 exposure_count exposure_time w))).
  { clear Hin. rewrite observatory_sequence_run.
    destruct (resolver w target) as [coords|]; [|repeat constructor].
    destruct (check_continue_sequence (sky_altitude w coords) w) as [[r g] w1] eqn:E.
    apply check_continue_sequence_inv in E as (Hg & _).
    assert (HPg : Forall (commanded_as_planned filter_name exposure_time) g)
      by (destruct Hg as [-> | ->]; repeat constructor).
    cbv zeta. destruct r as [[|]|x].
    - pose proof (for_each_Forall (commanded_as_planned filter_name exposure_time)
          exposure_time filter_name
          (base_directory +:+ "/" +:+ target +:+ "_" +:+ strftime (wall_clock w1 (ticks w1)))
          (fun c w' => capture_image_as_planned _ _ _ c w')
          ltac:(repeat (apply Forall_cons; split); try apply Forall_nil; try exact I;
                split; intros H; discriminate H)
          (seq 0 (Z.to_nat exposure_count)) (tick w1)) as Hl.
      rewrite <- range_unfold in Hl.
      destruct (for_each _ _ (tick w1)) as [[r l] w2].
      unfold events_of in Hl. cbn [fst snd] in Hl.
      destruct r as [[]|x]; unfold events_of; cbn [fst snd];
        repeat (apply Forall_app; split); try assumption; repeat constructor.
    - unfold events_of; cbn [fst snd].
      repeat (apply Forall_app; split); try assumption; repeat constructor.
    - unfold events_of; cbn [fst snd].
      repeat (apply Forall_app; split); try assumption; repeat constructor. }
  rewrite Forall_forall in Hall. exact (Hall _ Hin).
Qed.

Lemma sequence_commands_witness :
  filters !! "R" = Some 2%Z /\ (1 <= 2 <= 6)%Z.
Proof.
  refine (proj1 (sequence_commands_as_planned "M42" "/images" "R" 1 10
                   (sample_world 45 (Some "OK") [])
                   "ZWO EFW" "FILTER_SLOT" "FILTER_SLOT_VALUE" 2 _) eq_refl).
  vm_compute. do 5 apply list_elem_of_further. apply list_elem_of_here.
Defined.

(** *** Operator input *)

Lemma advance_stdin (k : nat) (w : World) : stdin (advance k w) = stdin w.
Proof. revert w. induction k as [|k IH]; intros w; [reflexivity | exact (IH (tick w))]. Qed.

Lemma for_each_range_stdin (exposure_time : Z) (filter_name directory : string)
    (exposure_count : Z) (w : World) :
  stdin (world_after (for_each (range exposure_count)
                        (sequence_step exposure_time filter_name directory) w)) = stdin w.
Proof.
  destruct (for_each_range_run exposure_time filter_name directory exposure_count w)
    as [(p & _ & _ & Hrun) | [(_ & Hrun) | (_ & _ & x & l & Hrun & _)]];
    cbv zeta in Hrun; rewrite Hrun; unfold world_after; cbn [snd];
    [apply advance_stdin | reflexivity | reflexivity].
Qed.

(** X11: a run of the sequence command reads at most one line from the
    operator: it leaves the pending input untouched, or removes exactly its
    first line; it removes none when the target does not resolve or stands
    at 20 degrees or more. *)
Theorem sequence_reads_at_most_one_line (target base_directory filter_name : string)
    (exposure_count exposure_time : Z) (w : World) :
  let w' := world_after (observatory_sequence target base_directory filter_name
                           exposure_count exposure_time w) in
  (stdin w' = stdin w \/ exists line, stdin w = line :: stdin w')
  /\ (resolver w target = None -> stdin w' = stdin w)
  /\ (forall coords, resolver w target = Some coords ->
        (20 <= sky_altitude w coords)%Q -> stdin w' = stdin w).
Proof.
  cbv zeta. rewrite observatory_sequence_run.
  destruct (resolver w target) as [coords|];
    [|split; [left; reflexivity | split; [reflexivity | discriminate]]].
  pose proof (check_continue_sequence_run (sky_altitude w coords) w) as Hgate.
  assert (Hany : forall (r : Result bool) (g : list Event) (w1 : World),
            check_continue_sequence (sky_altitude w coords) w = (r, g, w1) ->
            (stdin w1 = stdin w \/ exists line, stdin w = line :: stdin w1)
            /\ ((20 <= sky_altitude w coords)%Q -> stdin w1 = stdin w)).
  { intros r g w1. rewrite Hgate.
    destruct (Qlt_bool (sky_altitude w coords) 20) eqn:Hlt.
    - apply Qlt_bool_iff in Hlt.
      destruct (stdin w) as [|line rest] eqn:Hin; intros [= <- <- <-]; cbn [stdin set_stdin].
      + rewrite Hin. split; [left; reflexivity | reflexivity].
      + split; [right; exists line; reflexivity|].
        intros Hge. exfalso. exact (Qlt_not_le _ _ Hlt Hge).
    - intros [= <- <- <-]. split; [left; reflexivity | reflexivity]. }
  destruct (check_continue_sequence (sky_altitude w coords) w) as [[r g] w1].
  destruct (Hany r g w1 eq_refl) as [Hone Hhigh]. clear Hany Hgate.
  assert (Hgoal : forall w2 : World, stdin w2 = stdin w1 ->
            (stdin w2 = stdin w \/ exists line, stdin w = line :: stdin w2)
            /\ (Some coords = None -> stdin w2 = stdin w)
            /\ (forall c, Some coords = Some c ->
                  (20 <= sky_altitude w c)%Q -> stdin w2 = stdin w)).
  { intros w2 H2. rewrite H2. split; [exact Hone|]. split; [discriminate|].
    intros c [= <-]. exact Hhigh. }
  cbv zeta. destruct r as [[|]|x]; [|apply Hgoal; reflexivity..].
  pose proof (for_each_range_stdin exposure_time filter_name
      (base_directory +:+ "/" +:+ target +:+ "_" +:+ strftime (wall_clock w1 (ticks w1)))
      exposure_count (tick w1)) as Hloop.
  destruct (for_each _ _ (tick w1)) as [[[[]|x] l] w2];
    unfold world_after in *; cbn [snd] in *; apply Hgoal; exact Hloop.
Qed.

Lemma sequence_reads_witness :
  stdin (world_after (observatory_sequence "M42" "/images" "R" 3 10
                        (sample_world 45 (Some "OK") ["y"; "n"]))) = ["y"; "n"].
Proof.
  refine (proj2 (proj2 (sequence_reads_at_most_one_line "M42" "/images" "R" 3 10
                          (sample_world 45 (Some "OK") ["y"; "n"]))) M42 eq_refl _).
  vm_compute. discriminate.
Defined.

(** ** The dispatcher *)

Example dispatch_roof_open :
  observatory "roof" (Kw.of_state "open") (sample_world 45 (Some "OK") []) =
  (inl tt,
   [ IndiSwitch "Observatory Roof" "ROOF_STATE" "open";
     Note INFO (MsgSet "Observatory Roof" "ROOF_STATE" "open") ],
   sample_world 45 (Some "OK") []).
Proof. reflexivity. Qed.

Example dispatch_focus_with_state :
  observatory "focus" (Kw.of_state "on") (sample_world 45 (Some "OK") []) =
  (inr TypeError, [], sample_world 45 (Some "OK") []).
Proof. reflexivity. Qed.

Lemma commands_lookup_None (command : string) :
  commands !! command = None <->
  command ∉ ["set_light"; "telescope_cover"; "target"; "sequence"; "focus";
             "showimage"; "roof"].
Proof.
  unfold commands. rewrite <- not_elem_of_list_to_map. reflexivity.
Qed.

(** X12: a command name outside the seven of the table (the comparison is
    exact, so also a name in another case) is not an error for the caller:
    whatever the keywords (none of them being called command), the
    dispatcher writes one error record naming the command and returns,
    nothing else being done. *)
Theorem unknown_command_is_logged (command : string) (kwargs : Kw.t) (w : World) :
  command ∉ ["set_light"; "telescope_cover"; "target"; "sequence"; "focus";
             "showimage"; "roof"] ->
  "command" ∉ Kw.unexpected kwargs ->
  observatory command kwargs w =
  (inl tt, [Note ERROR (MsgUnknownCommand command)], w).
Proof.
  intros H Hkw. apply commands_lookup_None in H. unfold observatory.
  rewrite bool_decide_eq_false_2 by exact Hkw. rewrite H. reflexivity.
Qed.

Lemma unknown_command_witness :
  observatory "Focus" Kw.none (sample_world 45 (Some "OK") []) =
  (inl tt, [Note ERROR (MsgUnknownCommand "Focus")], sample_world 45 (Some "OK") []).
Proof.
  apply (unknown_command_is_logged "Focus").
  - apply commands_lookup_None. reflexivity.
  - apply not_elem_of_nil.
Defined.

Lemma binds_false (parameters : list string) (kw : Kw.t) :
  Kw.keys kw <> parameters -> binds parameters kw = false.
Proof. intros H. unfold binds. apply bool_decide_eq_false_2, H. Qed.

(** X13: a known command called with keywords that are not exactly the
    parameters of its function (one missing, or one too many) raises
    [TypeError] at the call: nothing is sent and nothing is logged. *)
Theorem keyword_mismatch_is_type_error (command : string) (parameters : list string)
    (kwargs : Kw.t) (w : World) :
  (command, parameters) ∈ signatures ->
  Kw.keys kwargs <> parameters ->
  observatory command kwargs w = (inr TypeError, [], w).
Proof.
  intros Hsig Hkeys. unfold signatures in Hsig.
  unfold observatory.
  destruct (bool_decide ("command" ∈ Kw.unexpected kwargs)); [reflexivity|].
  repeat (apply elem_of_cons in Hsig as [[= -> ->] | Hsig];
          [ idtac;
            lazymatch goal with
            | |- context [commands !! "set_light"] =>
                change (commands !! "set_light") with (Some call_set_light)
            | |- context [commands !! "telescope_cover"] =>
                change (commands !! "telescope_cover") with (Some call_telescope_cover)
            | |- context [commands !! "target"] =>
                change (commands !! "target") with (Some call_target)
            | |- context [commands !! "sequence"] =>
                change (commands !! "sequence") with (Some call_sequence)
            | |- context [commands !! "focus"] =>
                change (commands !! "focus") with (Some call_focus)
            | |- context [commands !! "showimage"] =>
                change (commands !! "showimage") with (Some call_showimage)
            | |- context [commands !! "roof"] =>
                change (commands !! "roof") with (Some call_roof)
            end;
            cbv beta iota;
            unfold call_set_light, call_telescope_cover, call_target, call_sequence,
              call_focus, call_showimage, call_roof;
            rewrite (binds_false _ _ Hkeys);
            repeat match goal with
                   | |- context [match ?o with Some _ => _ | None => _ end] => destruct o
                   end;
            reflexivity |]).
  apply elem_of_nil in Hsig. contradiction.
Qed.

Lemma keyword_mismatch_witness :
  observatory "sequence" (Kw.of_target_name "M42") (sample_world 45 (Some "OK") []) =
  (inr TypeError, [], sample_world 45 (Some "OK") []).
Proof.
  apply (keyword_mismatch_is_type_error "sequence"
           ["target"; "base_directory"; "filter_name"; "exposure_count"; "exposure_time"]).
  - unfold signatures. do 3 apply list_elem_of_further. apply list_elem_of_here.
  - discriminate.
Defined.

(** X14: the three switch commands write exactly one switch, of a fixed
    device and property each (the red light, the telescope cover, the roof),
    and log it; the state is passed on as given, without being checked
    against any list of states.  The focus command pulses the focuser: motion
    on, two seconds, motion off, one log record. *)
Theorem switch_and_focus_commands :
  (forall (state : string) (w : World),
     observatory "set_light" (Kw.of_state state) w =
     (inl tt,
      [ IndiSwitch "Red Light" "LIGHT_STATE" state;
        Note INFO (MsgSet "Red Light" "LIGHT_STATE" state) ], w))
  /\ (forall (state : string) (w : World),
        observatory "telescope_cover" (Kw.of_state state) w =
        (inl tt,
         [ IndiSwitch "Telescope Cover" "COVER_STATE" state;
           Note INFO (MsgSet "Telescope Cover" "COVER_STATE" state) ], w))
  /\ (forall (state : string) (w : World),
        observatory "roof" (Kw.of_state state) w =
        (inl tt,
         [ IndiSwitch "Observatory Roof" "ROOF_STATE" state;
           Note INFO (MsgSet "Observatory Roof" "ROOF_STATE" state) ], w))
  /\ (forall w : World,
        observatory "focus" Kw.none w =
        (inl tt,
         [ Core (IndiNumber "ZWO EAF" "FOCUS_MOTION" "FOCUS_MOTION_VALUE" 1);
           Core (Sleep 2);
           Core (IndiNumber "ZWO EAF" "FOCUS_MOTION" "FOCUS_MOTION_VALUE" 0);
           Note INFO MsgFocusingComplete ], w)).
Proof. repeat split. Qed.

Lemma append_assoc (a b c : string) : (a +:+ b) +:+ c = a +:+ (b +:+ c).
Proof.
  induction a as [|x a IH]; [reflexivity|].
  change (String x ((a +:+ b) +:+ c) = String x (a +:+ (b +:+ c))).
  rewrite IH. reflexivity.
Qed.

Lemma show_image_frame (directory filter_name timestamp : string) (c : Z) (w : World) :
  show_image directory
    (filter_name +:+ "_" +:+ timestamp +:+ "_" +:+ Text.format_04d c) w =
  (inl tt,
   [System ("ds9 " +:+ frame_filename directory filter_name timestamp c +:+ " &")], w).
Proof.
  unfold show_image, act, frame_filename, frame_path.
  do 3 f_equal. do 2 f_equal. simpl. do 2 f_equal.
  rewrite !append_assoc. reflexivity.
Qed.

(** X15: the showimage command names the files the way the sequence command
    does.  For every frame a sequence run saves, the showimage command,
    given the directory the run created and, as image name, the frame's
    filter, timestamp and index joined by underscores, passes to [os.system]
    the command line made of "ds9 ", the very path the camera was told to
    save, and " &": the path is put in as it is, without quoting (what the
    shell then makes of the line is not part of the statement). *)
Theorem viewer_opens_saved_frame (target base_directory filter_name : string)
    (exposure_count exposure_time : Z) (w w' : World) (k : nat) (path : string) :
  saved_paths (events_of (observatory_sequence target base_directory filter_name
                            exposure_count exposure_time w)) !! k = Some path ->
  exists directory timestamp : string,
    MakeDirs directory
      ∈ events_of (observatory_sequence target base_directory filter_name
                     exposure_count exposure_time w)
    /\ observatory "showimage"
         (Kw.of_showimage directory
            (filter_name +:+ "_" +:+ timestamp +:+ "_"
             +:+ Text.format_04d (Z.of_nat k + 1))) w' =
       (inl tt, [System ("ds9 " +:+ path +:+ " &")], w').
Proof.
  intros Hk.
  destruct (observatory_sequence_saved_paths target base_directory filter_name
              exposure_count exposure_time w) as [Hnone | [Hdir Hsaved]];
    cbv zeta in *.
  - rewrite Hnone in Hk. discriminate.
  - rewrite Hsaved in Hk. apply list_lookup_imap_Some in Hk as (i & Hi & ->).
    apply lookup_seq in Hi as [-> _].
    eexists _, _. split; [exact Hdir|].
    change (observatory "showimage" (Kw.of_showimage ?d ?i) w')
      with (show_image d i w').
    apply show_image_frame.
Qed.

Lemma viewer_opens_saved_frame_witness :
  exists directory timestamp : string,
    MakeDirs directory
      ∈ events_of (observatory_sequence "M42" "/images" "R" 2 10
                     (sample_world 45 (Some "OK") []))
    /\ observatory "showimage"
         (Kw.of_showimage directory
            ("R" +:+ "_" +:+ timestamp +:+ "_" +:+ Text.format_04d (Z.of_nat 1 + 1)))
         (sample_world 45 (Some "OK") []) =
       (inl tt,
        [System ("ds9 " +:+ "/images/M42_20240807_2230UT/R_20240807_2232UT_0002.fits"
                 +:+ " &")],
        sample_world 45 (Some "OK") []).
Proof.
  apply (viewer_opens_saved_frame "M42" "/images" "R" 2 10
           (sample_world 45 (Some "OK") []) (sample_world 45 (Some "OK") []) 1).
  reflexivity.
Defined.

Lemma lift_outcome {A} (m : M A) (w : World) :
  outcome_of (lift m w) =
  match result_of (m w) with
  | Ok a => inl a
  | Raise x => inr (Raised x)
  end
  /\ actions_of (lift m w) = Core <$> events_of (m w).
Proof.
  unfold lift, outcome_of, actions_of, result_of, events_of.
  destruct (m w) as [[[a|x] t] w1]; split; reflexivity.
Qed.

(** X16: the dispatcher runs the target and sequence commands as they are:
    their actions are passed on unchanged, and an exception raised inside
    (the [KeyError] of an unknown filter, the [ValueError] of a negative
    wait, the [EOFError] of the prompt) is not caught but reaches the caller
    of the dispatcher. *)
Theorem dispatcher_does_not_catch (w : World) :
  (forall (target_name : string),
     actions_of (observatory "target" (Kw.of_target_name target_name) w) =
       Core <$> events_of (observatory_target target_name w)
     /\ forall x, result_of (observatory_target target_name w) = Raise x ->
          outcome_of (observatory "target" (Kw.of_target_name target_name) w) =
          inr (Raised x))
  /\ (forall (target base_directory filter_name : string)
             (exposure_count exposure_time : Z),
        actions_of (observatory "sequence"
                      (Kw.of_sequence target base_directory filter_name
                         exposure_count exposure_time) w) =
          Core <$> events_of (observatory_sequence target base_directory filter_name
                                exposure_count exposure_time w)
        /\ forall x,
             result_of (observatory_sequence target base_directory filter_name
                          exposure_count exposure_time w) = Raise x ->
             outcome_of (observatory "sequence"
                           (Kw.of_sequence target base_directory filter_name
                              exposure_count exposure_time) w) =
             inr (Raised x)).
Proof.
  split.
  - intros target_name.
    change (observatory "target" (Kw.of_target_name target_name) w)
      with (lift (observatory_target target_name) w).
    destruct (lift_outcome (observatory_target target_name) w) as [Ho Ha].
    split; [exact Ha|]. intros x Hx. rewrite Ho, Hx. reflexivity.
  - intros target base_directory filter_name exposure_count exposure_time.
    change (observatory "sequence" (Kw.of_sequence target base_directory filter_name
                                      exposure_count exposure_time) w)
      with (lift (observatory_sequence target base_directory filter_name
                    exposure_count exposure_time) w).
    destruct (lift_outcome (observatory_sequence target base_directory filter_name
                              exposure_count exposure_time) w) as [Ho Ha].
    split; [exact Ha|]. intros x Hx. rewrite Ho, Hx. reflexivity.
Qed.

Lemma dispatcher_does_not_catch_witness :
  outcome_of (observatory "sequence" (Kw.of_sequence "M42" "/images" "X" 3 10)
                (sample_world 45 (Some "OK") [])) =
  inr (Raised (KeyError "X")).
Proof.
  apply (proj2 (dispatcher_does_not_catch (sample_world 45 (Some "OK") []))
           "M42" "/images" "X" 3%Z 10%Z).
  vm_compute. reflexivity.
Defined.

(** ** Calls to the guiding daemon *)

Lemma filter_guider_gate (altitude : Q) (g : list Event) :
  g = [] \/ g = [Prompt altitude] -> List.filter is_guider_call g = [].
Proof. intros [-> | ->]; reflexivity. Qed.

Lemma filter_guider_loop (l : list Event) :
  Forall (fun e => is_loop_event e = true) l -> List.filter is_guider_call l = [].
Proof.
  induction 1 as [|e l He _ IH]; [reflexivity|].
  simpl. rewrite IH. destruct e; try discriminate He; reflexivity.
Qed.

(** X17: a run that logs completion talks to the guiding daemon exactly
    three times, whatever the number of exposures: guide mode (multistar),
    start, stop, in this order. *)
Theorem completed_run_calls_guider_three_times
    (target base_directory filter_name : string)
    (exposure_count exposure_time : Z) (w : World) :
  successful (observatory_sequence target base_directory filter_name
                exposure_count exposure_time w) ->
  List.filter is_guider_call
    (events_of (observatory_sequence target base_directory filter_name
                  exposure_count exposure_time w)) =
  [ HttpGet (PHD2_API_URL +:+ "/set_dec_guide_mode") [("mode", "multistar")];
    HttpGet (PHD2_API_URL +:+ "/guide") [];
    HttpGet (PHD2_API_URL +:+ "/stop_capture") [] ].
Proof.
  intros Hdone.
  apply successful_inv in Hdone
    as (coords & g & l & w1 & w2 & _ & _ & Hg & Hl & Hrun).
  cbv zeta in Hrun. rewrite Hrun. unfold events_of. cbn [fst snd].
  rewrite !List.filter_app, (filter_guider_gate _ g Hg), (filter_guider_loop l Hl).
  reflexivity.
Qed.

Lemma completed_run_guider_witness :
  List.filter is_guider_call
    (events_of (observatory_sequence "M42" "/images" "R" 3 10
                  (sample_world 45 (Some "OK") []))) =
  [ HttpGet (PHD2_API_URL +:+ "/set_dec_guide_mode") [("mode", "multistar")];
    HttpGet (PHD2_API_URL +:+ "/guide") [];
    HttpGet (PHD2_API_URL +:+ "/stop_capture") [] ].
Proof.
  apply (completed_run_calls_guider_three_times "M42" "/images" "R" 3 10
           (sample_world 45 (Some "OK") [])).
  exists "/images/M42_20240807_2230UT". vm_compute.
  repeat first [apply list_elem_of_here | apply list_elem_of_further].
Defined.

(** ** Names across runs *)

Lemma observatory_sequence_complete_saved (target base_directory filter_name : string)
    (exposure_count exposure_time : Z) (w : World) (coords : Coords) (p : Z) :
  resolver w target = Some coords ->
  passes_gate w (sky_altitude w coords) ->
  filters !! filter_name = Some p ->
  sleep_fault (exposure_time + 2) = None ->
  saved_paths (events_of (observatory_sequence target base_directory filter_name
                            exposure_count exposure_time w)) =
  imap (fun j i =>
          frame_filename
            (base_directory +:+ "/" +:+ target +:+ "_" +:+ strftime (wall_clock w (ticks w)))
            filter_name (strftime (wall_clock w (S (ticks w) + j)%nat)) (Z.of_nat i + 1))
       (seq 0 (Z.to_nat exposure_count)).
Proof.
  intros Hres Hgate Hf Ht.
  destruct (observatory_sequence_complete target base_directory filter_name
              exposure_count exposure_time w coords p Hres Hgate Hf Ht)
    as (g & w1 & _ & Hg & Hrun).
  cbv zeta in Hrun. rewrite Hrun. unfold events_of. cbn [fst snd].
  rewrite !saved_paths_app, (saved_paths_gate _ g Hg), saved_paths_loop.
  cbn [saved_paths is_save app]. rewrite app_nil_r. reflexivity.
Qed.

(** When the camera wait is refused, a run that got past the gate ends
    after the directory and the start of guiding with a tail that creates
    and saves nothing, the same in every world. *)
Lemma observatory_sequence_wait_refused (target base_directory filter_name : string)
    (exposure_count exposure_time : Z) (w : World) (coords : Coords) (p : Z) (x : Exn) :
  resolver w target = Some coords ->
  passes_gate w (sky_altitude w coords) ->
  filters !! filter_name = Some p ->
  sleep_fault (exposure_time + 2) = Some x ->
  exists (g tail : list Event),
    (g = [] \/ g = [Prompt (sky_altitude w coords)])
    /\ events_of (observatory_sequence target base_directory filter_name
                    exposure_count exposure_time w) =
       [ SimbadQuery target; IndiGetProperty "iOptron IEQ Pro" "GEOGRAPHIC_COORD" ]
       ++ g
       ++ [ MakeDirs (base_directory +:+ "/" +:+ target +:+ "_"
                      +:+ strftime (wall_clock w (ticks w)));
            HttpGet (PHD2_API_URL +:+ "/set_dec_guide_mode") [("mode", "multistar")];
            HttpGet (PHD2_API_URL +:+ "/guide") [] ]
       ++ tail
    /\ saved_paths tail = []
    /\ List.filter is_makedirs tail = [].
Proof.
  intros Hres Hgate Hf Hs. unfold passes_gate in Hgate.
  rewrite observatory_sequence_run, Hres.
  destruct (check_continue_sequence (sky_altitude w coords) w) as [[r g] w1] eqn:E.
  unfold result_of in Hgate. simpl in Hgate. subst r.
  apply check_continue_sequence_inv in E as (Hg & _ & _ & _ & Hclock & Hticks).
  exists g. cbv zeta. rewrite range_unfold, Hclock, Hticks.
  destruct (Z.to_nat exposure_count) as [|k].
  - eexists. split; [exact Hg|]. cbn [seq map for_each].
    unfold events_of. cbn. split; [reflexivity|]. split; reflexivity.
  - cbn [seq]. rewrite (for_each_run_raise _ _ _ _ _ x) by (right; exact Hs).
    rewrite Hf. eexists. split; [exact Hg|].
    unfold events_of. cbn [fst snd]. split; [reflexivity|]. split; reflexivity.
Qed.

(** X18: the names a run gives depend on the clock only to the minute.  Two
    runs with the same base directory, target, filter and exposure count,
    all of whose clock readings show the same minute, use the same directory
    and tell the camera to save under the same file names: neither the
    directory nor the frame names are unique per run. *)
Theorem same_minute_runs_share_names (target base_directory filter_name : string)
    (exposure_count exposure_time : Z) (w w' : World) (coords coords' : Coords) (p : Z) :
  resolver w target = Some coords ->
  resolver w' target = Some coords' ->
  passes_gate w (sky_altitude w coords) ->
  passes_gate w' (sky_altitude w' coords') ->
  filters !! filter_name = Some p ->
  (0 <= exposure_time + 2)%Z ->
  (forall t t', strftime (wall_clock w t) = strftime (wall_clock w' t')) ->
  List.filter is_makedirs
    (events_of (observatory_sequence target base_directory filter_name
                  exposure_count exposure_time w)) =
  List.filter is_makedirs
    (events_of (observatory_sequence target base_directory filter_name
                  exposure_count exposure_time w'))
  /\ saved_paths
       (events_of (observatory_sequence target base_directory filter_name
                     exposure_count exposure_time w)) =
     saved_paths
       (events_of (observatory_sequence target base_directory filter_name
                     exposure_count exposure_time w')).
Proof.
  intros Hres Hres' Hgate Hgate' Hf Hpos Hclock.
  assert (Hgm : forall a (x : list Event), x = [] \/ x = [Prompt a] ->
            List.filter is_makedirs x = [])
    by (intros a x [-> | ->]; reflexivity).
  destruct (sleep_fault (exposure_time + 2)) as [fault|] eqn:Ht.
  { destruct (observatory_sequence_wait_refused target base_directory filter_name
                exposure_count exposure_time w coords p fault Hres Hgate Hf Ht)
      as (g & tail & Hg & -> & Hsaved & Hmk).
    destruct (observatory_sequence_wait_refused target base_directory filter_name
                exposure_count exposure_time w' coords' p fault Hres' Hgate' Hf Ht)
      as (g' & tail' & Hg' & -> & Hsaved' & Hmk').
    rewrite !List.filter_app, !saved_paths_app, Hsaved, Hsaved', Hmk, Hmk',
      (Hgm _ g Hg), (Hgm _ g' Hg'), (saved_paths_gate _ g Hg), (saved_paths_gate _ g' Hg').
    cbn. rewrite (Hclock (ticks w) (ticks w')). split; reflexivity. }
  split.
  - destruct (observatory_sequence_complete target base_directory filter_name
                exposure_count exposure_time w coords p Hres Hgate Hf Ht)
      as (g & w1 & _ & Hg & Hrun).
    destruct (observatory_sequence_complete target base_directory filter_name
                exposure_count exposure_time w' coords' p Hres' Hgate' Hf Ht)
      as (g' & w1' & _ & Hg' & Hrun').
    cbv zeta in Hrun, Hrun'. rewrite Hrun, Hrun'. unfold events_of. cbn [fst snd].
    assert (Hloop : forall clock t d n,
              List.filter is_makedirs (loop_events clock t p exposure_time filter_name d n)
              = []).
    { intros clock t d n. revert t. induction n as [|i n IH]; intros t; [reflexivity|].
      cbn [loop_events]. rewrite List.filter_app, IH. destruct i; reflexivity. }
    rewrite !List.filter_app, !Hloop, (Hgm _ g Hg), (Hgm _ g' Hg').
    cbn. rewrite (Hclock (ticks w) (ticks w')). reflexivity.
  - rewrite (observatory_sequence_complete_saved _ _ _ _ _ w coords p Hres Hgate Hf Ht),
      (observatory_sequence_complete_saved _ _ _ _ _ w' coords' p Hres' Hgate' Hf Ht).
    apply imap_ext. intros j i _.
    rewrite (Hclock (ticks w) (ticks w')),
      (Hclock (S (ticks w) + j)%nat (S (ticks w') + j)%nat). reflexivity.
Qed.

Lemma same_minute_runs_witness :
  saved_paths (events_of (observatory_sequence "M42" "/images" "R" 2 10 (frozen_world 0))) =
  saved_paths (events_of (observatory_sequence "M42" "/images" "R" 2 10 (frozen_world 3))).
Proof.
  apply (same_minute_runs_share_names "M42" "/images" "R" 2 10
           (frozen_world 0) (frozen_world 3) M42 M42 2);
    [reflexivity | reflexivity | reflexivity | reflexivity | reflexivity | lia
    | reflexivity].
Defined.
